(** * NJ Black Press Database: the client-side engine

    A shallow embedding of the filtering, sorting, pagination, decade
    aggregation, detail lookup and URL state code of the page controllers
    [docs/js/app.js], [docs/js/archive.js], [docs/js/publication.js] and
    [docs/js/timeline.js], with the properties the specification states
    about them. *)

From Stdlib Require Import List ZArith String Ascii Bool Lia Arith.
From Stdlib Require Import Permutation Sorted.
Import ListNotations.

Local Open Scope string_scope.

(** ** JavaScript values and builtins used by the controllers *)

Module JS.

(** Exceptions the modelled code can raise. *)
Inductive Exn : Type :=
| TypeError.

(** The completion of an evaluation: a value, or a thrown exception. *)
Inductive Completion (A : Type) : Type :=
| Normal (a : A)
| Throw (e : Exn).
Arguments Normal {A} a.
Arguments Throw {A} e.

Definition bind {A B} (c : Completion A) (k : A -> Completion B)
  : Completion B :=
  match c with
  | Normal a => k a
  | Throw e => Throw e
  end.

Definition returns {A} (c : Completion A) : Prop :=
  exists a, c = Normal a.

(** [Array.prototype.filter] with a callback that may throw: callbacks
    run in index order and the first exception propagates. *)
Fixpoint filterM {A} (f : A -> Completion bool) (l : list A)
  : Completion (list A) :=
  match l with
  | [] => Normal []
  | x :: r =>
      bind (f x) (fun b =>
      bind (filterM f r) (fun r' =>
      Normal (if b then x :: r' else r')))
  end.

(** Strings are sequences of 8-bit code units; case mapping and white
    space are those of ASCII. *)
Definition lowerChar (c : ascii) : ascii :=
  let n := nat_of_ascii c in
  if (65 <=? n)%nat && (n <=? 90)%nat then ascii_of_nat (n + 32) else c.

Fixpoint toLowerCase (s : string) : string :=
  match s with
  | EmptyString => EmptyString
  | String c r => String (lowerChar c) (toLowerCase r)
  end.

Fixpoint startsWith (s q : string) : bool :=
  match q, s with
  | EmptyString, _ => true
  | String _ _, EmptyString => false
  | String a q', String b s' => Ascii.eqb a b && startsWith s' q'
  end.

(** [String.prototype.includes]: [q] occurs in [s] at some position. *)
Fixpoint includes (s q : string) : bool :=
  startsWith s q ||
  match s with
  | EmptyString => false
  | String _ r => includes r q
  end.

Definition isSpace (c : ascii) : bool :=
  let n := nat_of_ascii c in
  ((9 <=? n)%nat && (n <=? 13)%nat) || (n =? 32)%nat.

Fixpoint trimStart (s : string) : string :=
  match s with
  | EmptyString => EmptyString
  | String c r => if isSpace c then trimStart r else s
  end.

Fixpoint trimEnd (s : string) : string :=
  match s with
  | EmptyString => EmptyString
  | String c r =>
      match trimEnd r with
      | EmptyString => if isSpace c then EmptyString else String c EmptyString
      | r' => String c r'
      end
  end.

Definition trim (s : string) : string := trimEnd (trimStart s).

(** Truthiness: [undefined], [null], the empty string and [0] are
    falsy. *)
Definition truthyStr (s : option string) : bool :=
  match s with
  | Some (String _ _) => true
  | _ => false
  end.

Definition truthyNum (x : option Z) : bool :=
  match x with
  | Some v => negb (v =? 0)%Z
  | None => false
  end.

Definition nonEmpty (s : string) : bool :=
  match s with
  | EmptyString => false
  | String _ _ => true
  end.

(** [x || d] on an optional number and on an optional string. *)
Definition orNum (x : option Z) (d : Z) : Z :=
  match x with
  | Some v => if (v =? 0)%Z then d else v
  | None => d
  end.

Definition orStr (x : option string) (d : string) : string :=
  match x with
  | Some (String c r) => String c r
  | _ => d
  end.

(** [Array.prototype.sort] with a comparator: the sort is stable, and
    an element [x] is placed before [y] when [cmp x y <= 0] and [x]
    came first.  Insertion from the right realises exactly this. *)
Section Sort.
Context {A : Type} (cmp : A -> A -> Z).

Fixpoint insert (x : A) (l : list A) : list A :=
  match l with
  | [] => [x]
  | y :: r => if (cmp x y <=? 0)%Z then x :: y :: r else y :: insert x r
  end.

Definition sort (l : list A) : list A := fold_right insert [] l.
End Sort.

(** [Array.prototype.slice(0, e)] for a non-negative count [e]. *)
Definition slice0 {A} (l : list A) (e : nat) : list A := firstn e l.

(** The decimal digits of a non-negative integer, most significant
    first, in front of [acc]. *)
Fixpoint digitsOnto (fuel : nat) (n : Z) (acc : string) : string :=
  match fuel with
  | O => acc
  | S fuel' =>
      let acc' := String (ascii_of_nat (48 + Z.to_nat (n mod 10))) acc in
      if (n / 10 =? 0)%Z then acc' else digitsOnto fuel' (n / 10) acc'
  end.

(** [Number.MAX_SAFE_INTEGER], 2^53 - 1. *)
Definition MAX_SAFE_INTEGER : Z := 9007199254740991.

(** [Number.isSafeInteger(n)] for an integer [n]. *)
Definition isSafeInteger (n : Z) : bool :=
  (Z.abs n <=? MAX_SAFE_INTEGER)%Z.

(** [String(n)] for an integer [n], as a template literal renders it.  A
    safe integer prints as its decimal digits.  Beyond that range the
    digits printed are the shortest ones that read back as the same
    double (18446744073709552000 for 2^64), in exponent form from 1e21 on
    (['1e+21']); that rendering is not computed here and is taken as the
    function [largeForm]. *)
Definition numberToString (largeForm : Z -> string) (n : Z) : string :=
  if isSafeInteger n
  then if (n <? 0)%Z
       then String "-"
              (digitsOnto (S (Z.to_nat (Z.log2 (- n)))) (- n) EmptyString)
       else digitsOnto (S (Z.to_nat (Z.log2 n))) n EmptyString
  else largeForm n.

Definition digitValue (c : ascii) : option Z :=
  let n := nat_of_ascii c in
  if (48 <=? n)%nat && (n <=? 57)%nat then Some (Z.of_nat (n - 48))
  else None.

Fixpoint parseDigits (acc : Z) (s : string) : Z :=
  match s with
  | EmptyString => acc
  | String c r =>
      match digitValue c with
      | Some d => parseDigits (acc * 10 + d) r
      | None => acc
      end
  end.

(** [parseInt(s, 10)]: leading white space is skipped, a sign is read,
    then the longest run of decimal digits; [None] is [NaN].  The value
    is the exact integer, as it is for every run the double format holds
    exactly. *)
Definition parseInt10 (s : string) : option Z :=
  let s1 := trimStart s in
  let signed :=
    match s1 with
    | String c r =>
        if Ascii.eqb c "-" then ((-1)%Z, r)
        else if Ascii.eqb c "+" then (1%Z, r)
        else (1%Z, s1)
    | EmptyString => (1%Z, s1)
    end in
  match snd signed with
  | EmptyString => None
  | String c _ =>
      match digitValue c with
      | Some _ => Some (fst signed * parseDigits 0 (snd signed))%Z
      | None => None
      end
  end.

(** [s.substring(0, e)]: a negative end counts as 0. *)
Definition substringTo (s : string) (e : Z) : string :=
  String.substring 0 (Z.to_nat e) s.

(** [s.lastIndexOf(c)] for a single character, counting from [i] at the
    head of [s]; [-1] when [c] does not occur. *)
Fixpoint lastIndexFrom (c : ascii) (s : string) (i : Z) : Z :=
  match s with
  | EmptyString => (-1)%Z
  | String x r =>
      let k := lastIndexFrom c r (i + 1) in
      if (0 <=? k)%Z then k else if Ascii.eqb x c then i else (-1)%Z
  end.

(** [s.replace(/c/g, by)] for a single character [c]. *)
Fixpoint replaceAll (c : ascii) (by_ : string) (s : string) : string :=
  match s with
  | EmptyString => EmptyString
  | String x r =>
      if Ascii.eqb x c then (by_ ++ replaceAll c by_ r)%string
      else String x (replaceAll c by_ r)
  end.

End JS.

Import JS.

Notation "x <- c ;; k" := (JS.bind c (fun x => k))
  (at level 61, c at next level, right associativity).

(** ** The record model *)

(** [publishers] is a string in the base document and may be an array of
    strings in the featured document. *)
Inductive Publishers : Type :=
| PublisherName (s : string)
| PublisherList (l : list string).

(** A publication as the JSON documents carry it.  [None] is an absent or
    [null] property. *)
Module Pub.
Record t : Type := mk {
  id : Z;
  name : option string;
  city : option string;
  yearFounded : option Z;
  yearCeased : option Z;
  isActive : option bool;
  decade : option string;
  medium : option string;
  primaryFocus : option string;
  missionStatement : option string;
  historicalNotes : option string;
  publishers : option Publishers;
  tags : option (list string)
}.
End Pub.

(** [pub.field === value] for an optional string property. *)
Definition strictEqStr (f : option string) (v : string) : bool :=
  match f with
  | Some s => String.eqb s v
  | None => false
  end.

(** [pub.isActive !== false && !pub.yearCeased], the derived status the
    archive and detail pages use. *)
Definition derivedActive (pub : Pub.t) : bool :=
  match Pub.isActive pub with
  | Some false => false
  | _ => negb (truthyNum (Pub.yearCeased pub))
  end.

(** [pub.isActive === false || pub.yearCeased], the test behind the
    archive page's "archived" button. *)
Definition derivedArchived (pub : Pub.t) : bool :=
  match Pub.isActive pub with
  | Some false => true
  | _ => truthyNum (Pub.yearCeased pub)
  end.

(** What a render pass decides about the result list. *)
Record View : Type := mkView {
  toShow : list Pub.t;
  emptyVisible : bool;
  loadMoreVisible : bool
}.

(** ** URLSearchParams

    The list of name-value pairs behind a [URLSearchParams] object, with
    the application/x-www-form-urlencoded serializer and parser of the
    URL standard. *)

Module URLSearchParams.

Definition t : Type := list (string * string).

Definition hexDigit (n : nat) : ascii :=
  if (n <? 10)%nat then ascii_of_nat (48 + n) else ascii_of_nat (55 + n).

Definition hexValue (c : ascii) : option nat :=
  let n := nat_of_ascii c in
  if (48 <=? n)%nat && (n <=? 57)%nat then Some (n - 48)%nat
  else if (65 <=? n)%nat && (n <=? 70)%nat then Some (n - 55)%nat
  else if (97 <=? n)%nat && (n <=? 102)%nat then Some (n - 87)%nat
  else None.

(** Bytes left as they are: ASCII alphanumerics and [*], [-], [.], [_]. *)
Definition isPlain (c : ascii) : bool :=
  let n := nat_of_ascii c in
  ((48 <=? n)%nat && (n <=? 57)%nat) ||
  ((65 <=? n)%nat && (n <=? 90)%nat) ||
  ((97 <=? n)%nat && (n <=? 122)%nat) ||
  (n =? 42)%nat || (n =? 45)%nat || (n =? 46)%nat || (n =? 95)%nat.

Definition encodeByte (c : ascii) : string :=
  if isPlain c then String c EmptyString
  else if Ascii.eqb c " " then "+"
  else
    let n := nat_of_ascii c in
    String "%" (String (hexDigit (n / 16))
                  (String (hexDigit (n mod 16)) EmptyString)).

Fixpoint encode (s : string) : string :=
  match s with
  | EmptyString => EmptyString
  | String c r => encodeByte c ++ encode r
  end.

(** [toString()] *)
Fixpoint serialize (l : t) : string :=
  match l with
  | [] => EmptyString
  | (n, v) :: r =>
      let pair := encode n ++ "=" ++ encode v in
      match r with
      | [] => pair
      | _ :: _ => pair ++ "&" ++ serialize r
      end
  end.

Fixpoint splitOn (sep : ascii) (s : string) : list string :=
  match s with
  | EmptyString => [EmptyString]
  | String c r =>
      if Ascii.eqb c sep then EmptyString :: splitOn sep r
      else
        match splitOn sep r with
        | h :: tl => String c h :: tl
        | [] => [String c EmptyString]
        end
  end.

(** Name up to the first [=], value after it; the whole sequence is the
    name when there is no [=]. *)
Fixpoint splitPair (s : string) : string * string :=
  match s with
  | EmptyString => (EmptyString, EmptyString)
  | String c r =>
      if Ascii.eqb c "=" then (EmptyString, r)
      else let (n, v) := splitPair r in (String c n, v)
  end.

Fixpoint replacePlus (s : string) : string :=
  match s with
  | EmptyString => EmptyString
  | String c r =>
      String (if Ascii.eqb c "+" then " "%char else c) (replacePlus r)
  end.

Fixpoint percentDecode (s : string) : string :=
  match s with
  | EmptyString => EmptyString
  | String c tl =>
      if Ascii.eqb c "%" then
        match tl with
        | String a (String b r) =>
            match hexValue a, hexValue b with
            | Some x, Some y =>
                String (ascii_of_nat (16 * x + y)) (percentDecode r)
            | _, _ => String c (percentDecode tl)
            end
        | _ => String c (percentDecode tl)
        end
      else String c (percentDecode tl)
  end.

Definition parsePair (bytes : string) : t :=
  match bytes with
  | EmptyString => []
  | String _ _ =>
      let (n, v) := splitPair bytes in
      [(percentDecode (replacePlus n), percentDecode (replacePlus v))]
  end.

Definition parse (input : string) : t :=
  flat_map parsePair (splitOn "&" input).

(** [new URLSearchParams(init)]: a leading [?] is dropped. *)
Definition ofString (init : string) : t :=
  match init with
  | String "?" r => parse r
  | _ => parse init
  end.

Definition has (params : t) (key : string) : bool :=
  existsb (fun kv => String.eqb (fst kv) key) params.

(** [get] returns [null] (here [None]) for a missing name. *)
Definition get (params : t) (key : string) : option string :=
  option_map snd (find (fun kv => String.eqb (fst kv) key) params).

(** [set]: overwrite the first pair of that name and drop the others,
    or append. *)
Fixpoint set (params : t) (key value : string) : t :=
  match params with
  | [] => [(key, value)]
  | (k, v) :: r =>
      if String.eqb k key
      then (k, value) :: filter (fun kv => negb (String.eqb (fst kv) key)) r
      else (k, v) :: set r key value
  end.

End URLSearchParams.

(** ** archive.js *)

Module Archive.

Record Filters : Type := mkFilters {
  search : string;
  city : string;
  decade : string;
  status : string
}.

Record State : Type := mkState {
  publications : list Pub.t;
  filtered : list Pub.t;
  filters : Filters;
  sort : string;
  view : string;
  page : nat;
  perPage : nat
}.

Definition initialState : State :=
  {| publications := []; filtered := [];
     filters := {| search := EmptyString; city := "all"; decade := "all";
                   status := "all" |};
     sort := "name"; view := "grid"; page := 1; perPage := 24 |}.

(** [pub.f && pub.f.toLowerCase().includes(query)] *)
Definition fieldIncludes (f : option string) (query : string) : bool :=
  match f with
  | Some (String c r) => includes (toLowerCase (String c r)) query
  | _ => false
  end.

(** [pub.publishers && pub.publishers.toLowerCase().includes(query)]:
    an array is truthy and has no [toLowerCase] method. *)
Definition publishersIncludes (f : option Publishers) (query : string)
  : Completion bool :=
  match f with
  | Some (PublisherName s) => Normal (fieldIncludes (Some s) query)
  | Some (PublisherList _) => Throw TypeError
  | None => Normal false
  end.

(** [pub.tags && pub.tags.some(t => t.toLowerCase().includes(query))] *)
Definition tagsInclude (f : option (list string)) (query : string) : bool :=
  match f with
  | Some l => existsb (fun t => includes (toLowerCase t) query) l
  | None => false
  end.

(** The search callback: a chain of [||], evaluated left to right. *)
Definition searchMatches (query : string) (pub : Pub.t) : Completion bool :=
  if fieldIncludes (Pub.name pub) query then Normal true
  else if fieldIncludes (Pub.city pub) query then Normal true
  else if fieldIncludes (Pub.missionStatement pub) query then Normal true
  else if fieldIncludes (Pub.historicalNotes pub) query then Normal true
  else if fieldIncludes (Pub.primaryFocus pub) query then Normal true
  else
    b <- publishersIncludes (Pub.publishers pub) query ;;
    if b then Normal true
    else Normal (tagsInclude (Pub.tags pub) query).

Section Engine.
(** [String.prototype.localeCompare] in the browser's locale. *)
Variable localeCompare : string -> string -> Z.

Definition sortPublications (st : State) (lst : list Pub.t)
  : list Pub.t :=
  if String.eqb (sort st) "name" then
    JS.sort (fun a b =>
      localeCompare (orStr (Pub.name a) EmptyString)
        (orStr (Pub.name b) EmptyString)) lst
  else if String.eqb (sort st) "year-asc" then
    JS.sort (fun a b =>
      orNum (Pub.yearFounded a) 9999 - orNum (Pub.yearFounded b) 9999)%Z
      lst
  else if String.eqb (sort st) "year-desc" then
    JS.sort (fun a b =>
      orNum (Pub.yearFounded b) 0 - orNum (Pub.yearFounded a) 0)%Z lst
  else if String.eqb (sort st) "city" then
    JS.sort (fun a b =>
      localeCompare (orStr (Pub.city a) EmptyString)
        (orStr (Pub.city b) EmptyString)) lst
  else lst.

Definition applyFilters (st : State) : Completion State :=
  let f := filters st in
  let filtered0 := publications st in
  filtered1 <-
    (if nonEmpty (search f)
     then filterM (searchMatches (toLowerCase (search f))) filtered0
     else Normal filtered0) ;;
  let filtered2 :=
    if negb (String.eqb (city f) "all")
    then filter (fun pub => strictEqStr (Pub.city pub) (city f)) filtered1
    else filtered1 in
  let filtered3 :=
    if negb (String.eqb (decade f) "all")
    then filter (fun pub => strictEqStr (Pub.decade pub) (decade f))
           filtered2
    else filtered2 in
  let filtered4 :=
    if negb (String.eqb (status f) "all") then
      if String.eqb (status f) "active"
      then filter derivedActive filtered3
      else filter derivedArchived filtered3
    else filtered3 in
  Normal {| publications := publications st;
            filtered := sortPublications st filtered4;
            filters := f; sort := sort st; view := view st;
            page := page st; perPage := perPage st |}.

(** The search box handler: trim, lower-case, restart pagination. *)
Definition onSearchInput (value : string) (st : State)
  : Completion State :=
  applyFilters
    {| publications := publications st; filtered := filtered st;
       filters := {| search := toLowerCase (trim value);
                     city := city (filters st);
                     decade := decade (filters st);
                     status := status (filters st) |};
       sort := sort st; view := view st; page := 1;
       perPage := perPage st |}.

(** The city select. *)
Definition onCityChange (value : string) (st : State) : Completion State :=
  applyFilters
    {| publications := publications st; filtered := filtered st;
       filters := {| search := search (filters st); city := value;
                     decade := decade (filters st);
                     status := status (filters st) |};
       sort := sort st; view := view st; page := 1;
       perPage := perPage st |}.


(** A status button, carrying [data-status]. *)
Definition onStatusClick (value : string) (st : State)
  : Completion State :=
  applyFilters
    {| publications := publications st; filtered := filtered st;
       filters := {| search := search (filters st);
                     city := city (filters st);
                     decade := decade (filters st); status := value |};
       sort := sort st; view := view st; page := 1;
       perPage := perPage st |}.


(** [clearFilter(type)] *)
Definition clearFilter (type : string) (st : State) : Completion State :=
  let f := filters st in
  let f' :=
    if String.eqb type "search" then
      {| search := EmptyString; city := city f; decade := decade f;
         status := status f |}
    else if String.eqb type "city" then
      {| search := search f; city := "all"; decade := decade f;
         status := status f |}
    else if String.eqb type "decade" then
      {| search := search f; city := city f; decade := "all";
         status := status f |}
    else if String.eqb type "status" then
      {| search := search f; city := city f; decade := decade f;
         status := "all" |}
    else f in
  applyFilters
    {| publications := publications st; filtered := filtered st;
       filters := f'; sort := sort st; view := view st; page := 1;
       perPage := perPage st |}.

(** [resetFilters] *)
Definition resetFilters (st : State) : Completion State :=
  applyFilters
    {| publications := publications st; filtered := filtered st;
       filters := {| search := EmptyString; city := "all";
                     decade := "all"; status := "all" |};
       sort := sort st; view := view st; page := 1;
       perPage := perPage st |}.
End Engine.

Definition renderResults (st : State) : View :=
  let shown := slice0 (filtered st) (page st * perPage st) in
  if (List.length (filtered st) =? 0)%nat
  then {| toShow := shown; emptyVisible := true; loadMoreVisible := false |}
  else {| toShow := shown; emptyVisible := false;
          loadMoreVisible :=
            (List.length shown <? List.length (filtered st))%nat |}.

Definition loadMore (st : State) : State :=
  {| publications := publications st; filtered := filtered st;
     filters := filters st; sort := sort st; view := view st;
     page := S (page st); perPage := perPage st |}.

(** [loadStateFromURL], reading [window.location.search]. *)
Definition loadStateFromURL (locationSearch : string) (st : State)
  : State :=
  let params := URLSearchParams.ofString locationSearch in
  let pick key current :=
    if URLSearchParams.has params key
    then match URLSearchParams.get params key with
         | Some v => v
         | None => current
         end
    else current in
  let f := filters st in
  {| publications := publications st; filtered := filtered st;
     filters := {| search := pick "search" (search f);
                   city := pick "city" (city f);
                   decade := pick "decade" (decade f);
                   status := pick "status" (status f) |};
     sort := pick "sort" (sort st);
     view := pick "view" (view st);
     page := page st; perPage := perPage st |}.

(** The parameters [updateURL] collects. *)
Definition urlParams (st : State) : URLSearchParams.t :=
  let f := filters st in
  let p0 : URLSearchParams.t := [] in
  let p1 := if nonEmpty (search f)
            then URLSearchParams.set p0 "search" (search f) else p0 in
  let p2 := if negb (String.eqb (city f) "all")
            then URLSearchParams.set p1 "city" (city f) else p1 in
  let p3 := if negb (String.eqb (decade f) "all")
            then URLSearchParams.set p2 "decade" (decade f) else p2 in
  let p4 := if negb (String.eqb (status f) "all")
            then URLSearchParams.set p3 "status" (status f) else p3 in
  let p5 := if negb (String.eqb (sort st) "name")
            then URLSearchParams.set p4 "sort" (sort st) else p4 in
  if negb (String.eqb (view st) "grid")
  then URLSearchParams.set p5 "view" (view st) else p5.

(** [updateURL]: the query component of the URL handed to
    [history.replaceState], which the next page load reads back as
    [window.location.search]. *)
Definition updateURL (st : State) : string :=
  let str := URLSearchParams.serialize (urlParams st) in
  if nonEmpty str then "?" ++ str else EmptyString.

(** A filter chip of [updateActiveFiltersDisplay]. *)
Record Chip : Type := mkChip {
  type : string;
  label : string
}.

(** The [chips] array [updateActiveFiltersDisplay] builds. *)
Definition activeFilterChips (st : State) : list Chip :=
  let f := filters st in
  ((if nonEmpty (search f)
    then [mkChip "search"
            (String "034" (search f ++ String "034" EmptyString))]
    else [])
   ++ (if negb (String.eqb (city f) "all")
       then [mkChip "city" (city f)] else [])
   ++ (if negb (String.eqb (decade f) "all")
       then [mkChip "decade" (decade f)] else [])
   ++ (if negb (String.eqb (status f) "all")
       then [mkChip "status"
               (if String.eqb (status f) "active"
                then "Active Only" else "Archived Only")]
       else []))%list.

(** [new Set(values)] spread into an array: first occurrences, in
    insertion order. *)
Fixpoint uniqueFrom (seen : list string) (values : list string)
  : list string :=
  match values with
  | [] => []
  | v :: r =>
      if existsb (String.eqb v) seen then uniqueFrom seen r
      else v :: uniqueFrom (v :: seen) r
  end.

(** [state.publications.map(p => p.city).filter(Boolean)] *)
Definition truthyCities (pubs : list Pub.t) : list string :=
  flat_map (fun p =>
    match Pub.city p with
    | Some (String c r) => [String c r]
    | _ => []
    end) pubs.

(** [Array.prototype.sort()] without a comparator orders strings by code
    unit. *)
Fixpoint defaultCompare (a b : string) : Z :=
  match a, b with
  | EmptyString, EmptyString => 0
  | EmptyString, String _ _ => -1
  | String _ _, EmptyString => 1
  | String x a', String y b' =>
      match Nat.compare (nat_of_ascii x) (nat_of_ascii y) with
      | Lt => -1
      | Gt => 1
      | Eq => defaultCompare a' b'
      end
  end%Z.

(** The options [populateCityFilter] appends to the city select. *)
Definition cityOptions (st : State) : list string :=
  JS.sort defaultCompare (uniqueFrom [] (truthyCities (publications st))).

(** The counters [loadData] hands to the hero section. *)
Record Stats : Type := mkStats {
  heroTotal : nat;
  activeCount : nat;
  archivedCount : nat;
  cityCount : nat
}.

Definition loadDataStats (pubs : list Pub.t) : Stats :=
  let active := List.length (filter derivedActive pubs) in
  {| heroTotal := List.length pubs;
     activeCount := active;
     archivedCount := List.length pubs - active;
     cityCount := List.length (uniqueFrom [] (truthyCities pubs)) |}.

(** [truncate(str, len)] *)
Definition truncate (str : option string) (len : nat) : string :=
  match str with
  | Some (String c r) =>
      if (len <? String.length (String c r))%nat
      then (String.substring 0 len (String c r) ++ "...")%string
      else String c r
  | _ => EmptyString
  end.

(** The query component of the link a card carries,
    [publication.html?id=${pub.id}]. *)
Definition detailLink (largeForm : Z -> string) (pub : Pub.t) : string :=
  ("?id=" ++ numberToString largeForm (Pub.id pub))%string.

(** [init] when the data document loads: the state is seeded from the
    URL, the publications are stored, and the filters are applied. *)
Definition init (localeCompare : string -> string -> Z)
    (locationSearch : string) (pubs : list Pub.t) : Completion State :=
  let st := loadStateFromURL locationSearch initialState in
  applyFilters localeCompare
    {| publications := pubs; filtered := filtered st;
       filters := filters st; sort := sort st; view := view st;
       page := page st; perPage := perPage st |}.

End Archive.

(** ** app.js *)

Module App.

Record Filters : Type := mkFilters {
  search : string;
  city : string;
  decade : string;
  status : string;
  format : string
}.

Record State : Type := mkState {
  publications : list Pub.t;
  filteredPublications : list Pub.t;
  filters : Filters;
  sortBy : string;
  currentPage : nat;
  perPage : nat
}.

Definition initialState : State :=
  {| publications := []; filteredPublications := [];
     filters := {| search := EmptyString; city := "all"; decade := "all";
                   status := "all"; format := "all" |};
     sortBy := "name"; currentPage := 1; perPage := 24 |}.

(** [pub.f?.toLowerCase().includes(query)] *)
Definition fieldIncludes (f : option string) (query : string) : bool :=
  match f with
  | Some s => includes (toLowerCase s) query
  | None => false
  end.

(** [pub.publishers?.toLowerCase().includes(query)]: optional chaining
    guards only [undefined] and [null]. *)
Definition publishersIncludes (f : option Publishers) (query : string)
  : Completion bool :=
  match f with
  | Some (PublisherName s) => Normal (includes (toLowerCase s) query)
  | Some (PublisherList _) => Throw TypeError
  | None => Normal false
  end.

Definition searchMatches (query : string) (pub : Pub.t) : Completion bool :=
  if fieldIncludes (Pub.name pub) query then Normal true
  else if fieldIncludes (Pub.city pub) query then Normal true
  else if fieldIncludes (Pub.primaryFocus pub) query then Normal true
  else if fieldIncludes (Pub.missionStatement pub) query then Normal true
  else publishersIncludes (Pub.publishers pub) query.

(** [pub.isActive === isActive] *)
Definition storedFlagIs (isActive : bool) (pub : Pub.t) : bool :=
  match Pub.isActive pub with
  | Some b => Bool.eqb b isActive
  | None => false
  end.

Definition formatMatches (fmt : string) (pub : Pub.t) : bool :=
  let medium := orStr (option_map toLowerCase (Pub.medium pub)) EmptyString in
  if String.eqb fmt "print" then includes medium "print"
  else if String.eqb fmt "digital"
  then includes medium "digital" || includes medium "online"
  else true.

Section Engine.
Variable localeCompare : string -> string -> Z.

Definition sortPublications (st : State) : State :=
  let sorted := filteredPublications st in
  let sorted' :=
    if String.eqb (sortBy st) "name" then
      JS.sort (fun a b =>
        localeCompare (orStr (Pub.name a) EmptyString)
          (orStr (Pub.name b) EmptyString))
        sorted
    else if String.eqb (sortBy st) "year-asc" then
      JS.sort (fun a b =>
        orNum (Pub.yearFounded a) 9999
        - orNum (Pub.yearFounded b) 9999)%Z sorted
    else if String.eqb (sortBy st) "year-desc" then
      JS.sort (fun a b =>
        orNum (Pub.yearFounded b) 0 - orNum (Pub.yearFounded a) 0)%Z
        sorted
    else if String.eqb (sortBy st) "city" then
      JS.sort (fun a b =>
        localeCompare (orStr (Pub.city a) EmptyString)
          (orStr (Pub.city b) EmptyString))
        sorted
    else sorted in
  {| publications := publications st; filteredPublications := sorted';
     filters := filters st; sortBy := sortBy st;
     currentPage := currentPage st; perPage := perPage st |}.

Definition applyFilters (st : State) : Completion State :=
  let f := filters st in
  let filtered0 := publications st in
  filtered1 <-
    (if nonEmpty (search f)
     then filterM (searchMatches (search f)) filtered0
     else Normal filtered0) ;;
  let filtered2 :=
    if negb (String.eqb (city f) "all")
    then filter (fun pub => strictEqStr (Pub.city pub) (city f)) filtered1
    else filtered1 in
  let filtered3 :=
    if negb (String.eqb (decade f) "all")
    then filter (fun pub => strictEqStr (Pub.decade pub) (decade f))
           filtered2
    else filtered2 in
  let filtered4 :=
    if negb (String.eqb (status f) "all")
    then filter (storedFlagIs (String.eqb (status f) "active")) filtered3
    else filtered3 in
  let filtered5 :=
    if negb (String.eqb (format f) "all")
    then filter (formatMatches (format f)) filtered4
    else filtered4 in
  Normal (sortPublications
    {| publications := publications st; filteredPublications := filtered5;
       filters := f; sortBy := sortBy st;
       currentPage := currentPage st; perPage := perPage st |}).

(** [handleSearch] *)
Definition handleSearch (value : string) (st : State)
  : Completion State :=
  applyFilters
    {| publications := publications st;
       filteredPublications := filteredPublications st;
       filters := {| search := trim (toLowerCase value);
                     city := city (filters st);
                     decade := decade (filters st);
                     status := status (filters st);
                     format := format (filters st) |};
       sortBy := sortBy st; currentPage := 1; perPage := perPage st |}.

(** [state.filters[filterType] = filterValue]; a name other than the
    five filter names adds a property no filter reads. *)
Definition assignFilter (filterType filterValue : string) (f : Filters)
  : Filters :=
  if String.eqb filterType "search" then
    {| search := filterValue; city := city f; decade := decade f;
       status := status f; format := format f |}
  else if String.eqb filterType "city" then
    {| search := search f; city := filterValue; decade := decade f;
       status := status f; format := format f |}
  else if String.eqb filterType "decade" then
    {| search := search f; city := city f; decade := filterValue;
       status := status f; format := format f |}
  else if String.eqb filterType "status" then
    {| search := search f; city := city f; decade := decade f;
       status := filterValue; format := format f |}
  else if String.eqb filterType "format" then
    {| search := search f; city := city f; decade := decade f;
       status := status f; format := filterValue |}
  else f.


(** [handleSort] *)
Definition handleSort (value : string) (st : State) : State :=
  sortPublications
    {| publications := publications st;
       filteredPublications := filteredPublications st;
       filters := filters st; sortBy := value;
       currentPage := currentPage st; perPage := perPage st |}.

(** [removeFilter(type)] *)
Definition removeFilter (type : string) (st : State) : Completion State :=
  applyFilters
    {| publications := publications st;
       filteredPublications := filteredPublications st;
       filters :=
         if String.eqb type "search"
         then assignFilter "search" EmptyString (filters st)
         else assignFilter type "all" (filters st);
       sortBy := sortBy st; currentPage := 1; perPage := perPage st |}.

(** [resetFilters] *)
Definition resetFilters (st : State) : Completion State :=
  applyFilters
    {| publications := publications st;
       filteredPublications := filteredPublications st;
       filters := {| search := EmptyString; city := "all";
                     decade := "all"; status := "all"; format := "all" |};
       sortBy := sortBy st; currentPage := 1; perPage := perPage st |}.

End Engine.

Definition renderPublications (st : State) : View :=
  let stop := (currentPage st * perPage st)%nat in
  let shown := slice0 (filteredPublications st) stop in
  if (List.length shown =? 0)%nat
  then {| toShow := shown; emptyVisible := true; loadMoreVisible := false |}
  else {| toShow := shown; emptyVisible := false;
          loadMoreVisible :=
            (stop <? List.length (filteredPublications st))%nat |}.

Definition loadMore (st : State) : State :=
  {| publications := publications st;
     filteredPublications := filteredPublications st;
     filters := filters st; sortBy := sortBy st;
     currentPage := S (currentPage st); perPage := perPage st |}.

(** The two counters [updateResultsCount] writes: shown and total. *)
Definition updateResultsCount (st : State) : nat * nat :=
  (Nat.min (currentPage st * perPage st)
     (List.length (filteredPublications st)),
   List.length (filteredPublications st)).

Record Chip : Type := mkChip {
  type : string;
  label : string
}.

(** The [activeFilters] array of [updateActiveFiltersDisplay]. *)
Definition activeFilterChips (st : State) : list Chip :=
  let f := filters st in
  ((if nonEmpty (search f)
    then [mkChip "search"
            (String "034" (search f ++ String "034" EmptyString))]
    else [])
   ++ (if negb (String.eqb (city f) "all")
       then [mkChip "city" (city f)] else [])
   ++ (if negb (String.eqb (decade f) "all")
       then [mkChip "decade" (decade f)] else [])
   ++ (if negb (String.eqb (status f) "all")
       then [mkChip "status"
               (if String.eqb (status f) "active"
                then "Active" else "Archived")]
       else [])
   ++ (if negb (String.eqb (format f) "all")
       then [mkChip "format"
               (if String.eqb (format f) "print"
                then "Print" else "Digital")]
       else []))%list.

(** [truncate(str, length)] *)
Definition truncate (str : option string) (len : nat) : string :=
  match str with
  | Some (String c r) =>
      if (len <? String.length (String c r))%nat
      then (String.substring 0 len (String c r) ++ "...")%string
      else String c r
  | _ => EmptyString
  end.

(** The query component of the link a card carries,
    [publication.html?id=${pub.id}]. *)
Definition detailLink (largeForm : Z -> string) (pub : Pub.t) : string :=
  ("?id=" ++ numberToString largeForm (Pub.id pub))%string.

End App.

(** ** timeline.js *)

Module Timeline.

Record Decade : Type := mkDecade {
  label : string;
  start : Z;
  stop : Z   (* the source's [end], a reserved word here *)
}.

Definition decades : list Decade :=
  [ mkDecade "1880s" 1880 1889; mkDecade "1890s" 1890 1899;
    mkDecade "1900s" 1900 1909; mkDecade "1910s" 1910 1919;
    mkDecade "1920s" 1920 1929; mkDecade "1930s" 1930 1939;
    mkDecade "1940s" 1940 1949; mkDecade "1950s" 1950 1959;
    mkDecade "1960s" 1960 1969; mkDecade "1970s" 1970 1979;
    mkDecade "1980s" 1980 1989; mkDecade "1990s" 1990 1999;
    mkDecade "2000s" 2000 2009; mkDecade "2010s" 2010 2019;
    mkDecade "2020s" 2020 2029 ]%Z.

Record DecadeData : Type := mkDecadeData {
  window : Decade;
  activeCount : nat;
  foundedCount : nat;
  publications : list Pub.t
}.

(** [founded <= decade.end && ceased >= decade.start] after the two
    [||] defaults. *)
Definition activeDuring (d : Decade) (pub : Pub.t) : bool :=
  let founded := orNum (Pub.yearFounded pub) 9999 in
  let ceased := orNum (Pub.yearCeased pub) 2026 in
  (founded <=? stop d)%Z && (ceased >=? start d)%Z.

(** A relational comparison coerces [null] to [0].  (An absent property
    gives [NaN] and fails both comparisons; every window starts after 0,
    so the conjunction below comes out the same.) *)
Definition toNumber (x : option Z) : Z :=
  match x with
  | Some v => v
  | None => 0%Z
  end.

(** [pub.yearFounded >= decade.start && pub.yearFounded <= decade.end] *)
Definition foundedDuring (d : Decade) (pub : Pub.t) : bool :=
  (toNumber (Pub.yearFounded pub) >=? start d)%Z
  && (toNumber (Pub.yearFounded pub) <=? stop d)%Z.

Definition calculateDecadeData (pubs : list Pub.t) : list DecadeData :=
  map (fun d =>
    let activePublications := filter (activeDuring d) pubs in
    let founded := filter (foundedDuring d) pubs in
    {| window := d;
       activeCount := List.length activePublications;
       foundedCount := List.length founded;
       publications := slice0 activePublications 5 |}) decades.

(** [Math.max(...decadeData.map(d => d.activeCount), 1)] in
    [renderTimeline]. *)
Definition maxCount (decadeData : list DecadeData) : nat :=
  fold_right Nat.max 1 (map activeCount decadeData).



End Timeline.

(** ** publication.js *)

Module Detail.

Record Featured : Type := mkFeatured {
  historic : list Pub.t;
  contemporary : list Pub.t
}.

Inductive Source : Type :=
| FeaturedHistoric
| FeaturedContemporary
| Main.

(** The object [{ ...pub, _source }]. *)
Record Found : Type := mkFound {
  pub : Pub.t;
  _source : Source
}.

Definition byId (id : Z) (p : Pub.t) : bool := (Pub.id p =? id)%Z.

Definition findPublication (featuredPublications : Featured)
    (allPublications : list Pub.t) (id : Z) : option Found :=
  match find (byId id) (historic featuredPublications) with
  | Some p => Some {| pub := p; _source := FeaturedHistoric |}
  | None =>
      match find (byId id) (contemporary featuredPublications) with
      | Some p => Some {| pub := p; _source := FeaturedContemporary |}
      | None =>
          match find (byId id) allPublications with
          | Some p => Some {| pub := p; _source := Main |}
          | None => None
          end
      end
  end.

(** [getPublicationId], reading [window.location.search]; [None] is
    [null] or [NaN]. *)
Definition getPublicationId (locationSearch : string) : option Z :=
  match URLSearchParams.get (URLSearchParams.ofString locationSearch) "id"
  with
  | Some (String c r) => parseInt10 (String c r)
  | _ => None
  end.

(** The lookup of [init]: a falsy id and a missing record both end in the
    error state, here [None]. *)
Definition init (locationSearch : string) (featuredPublications : Featured)
    (allPublications : list Pub.t) : option Found :=
  match getPublicationId locationSearch with
  | Some id =>
      if (id =? 0)%Z then None
      else findPublication featuredPublications allPublications id
  | None => None
  end.

(** The [related] list of [buildRelatedSection]. *)
Definition related (allPublications : list Pub.t) (current : Pub.t)
  : list Pub.t :=
  slice0
    (filter (fun p =>
       if (Pub.id p =? Pub.id current)%Z then false
       else if truthyStr (Pub.city p) && truthyStr (Pub.city current)
               && strictEqStr (Pub.city p)
                    (orStr (Pub.city current) EmptyString)
       then true
       else truthyStr (Pub.decade p) && truthyStr (Pub.decade current)
            && strictEqStr (Pub.decade p)
                 (orStr (Pub.decade current) EmptyString))
       allPublications) 4.

End Detail.

(** A comparison by code unit, one admissible [localeCompare]; used to run
    the engine on concrete inputs. *)
Fixpoint codeUnitCompare (a b : string) : Z :=
  match a, b with
  | EmptyString, EmptyString => 0
  | EmptyString, String _ _ => -1
  | String _ _, EmptyString => 1
  | String x a', String y b' =>
      match Nat.compare (nat_of_ascii x) (nat_of_ascii y) with
      | Lt => -1
      | Gt => 1
      | Eq => codeUnitCompare a' b'
      end
  end%Z.

(** The sort keys the controllers recognise. *)
Definition recognizedKey (k : string) : Prop :=
  k = "name" \/ k = "year-asc" \/ k = "year-desc" \/ k = "city".

(** [Counted P l n]: exactly [n] positions of [l] hold an element
    satisfying [P]. *)
Inductive Counted {A : Type} (P : A -> Prop) : list A -> nat -> Prop :=
| Counted_nil : Counted P [] 0
| Counted_hit x l n : P x -> Counted P l n -> Counted P (x :: l) (S n)
| Counted_miss x l n : ~ P x -> Counted P l n -> Counted P (x :: l) n.

(** ** featured.js *)

Module FeaturedCards.

(** [truncate(str, length)], which tries to break at a word boundary. *)
Definition truncate (str : option string) (len : Z) : string :=
  match str with
  | Some (String c r) =>
      let s := String c r in
      if (Z.of_nat (String.length s) <=? len)%Z then s
      else
        let truncated := substringTo s len in
        let lastSpace := lastIndexFrom " " truncated 0 in
        if (len - 30 <? lastSpace)%Z
        then (substringTo truncated lastSpace ++ "...")%string
        else (truncated ++ "...")%string
  | _ => EmptyString
  end.

(** [escapeAttr(str)] *)
Definition escapeAttr (str : option string) : string :=
  match str with
  | Some (String c r) =>
      replaceAll "'" "&#39;" (replaceAll "034" "&quot;" (String c r))
  | _ => EmptyString
  end.

End FeaturedCards.

(** ** The aggregation rule in the specification's words *)

(** [x ?? d]: the default applies to an absent value only. *)
Definition nullish (x : option Z) (d : Z) : Z :=
  match x with
  | Some v => v
  | None => d
  end.

(** "(yearFounded ?? 9999) <= window.end AND (yearCeased ?? 2026) >=
    window.start" *)
Definition specOverlaps (d : Timeline.Decade) (p : Pub.t) : Prop :=
  (nullish (Pub.yearFounded p) 9999 <= Timeline.stop d)%Z
  /\ (nullish (Pub.yearCeased p) 2026 >= Timeline.start d)%Z.

(** The same overlap with the defaults also replacing a year of [0]. *)
Definition overlaps (d : Timeline.Decade) (p : Pub.t) : Prop :=
  (orNum (Pub.yearFounded p) 9999 <= Timeline.stop d)%Z
  /\ (orNum (Pub.yearCeased p) 2026 >= Timeline.start d)%Z.

(** "yearFounded falls within [window.start, window.end] inclusive" *)
Definition foundedWithin (d : Timeline.Decade) (p : Pub.t) : Prop :=
  exists y, Pub.yearFounded p = Some y
            /\ (Timeline.start d <= y <= Timeline.stop d)%Z.

(** ** Byte sequences free of a separator *)

Fixpoint lacks (sep : ascii) (s : string) : bool :=
  match s with
  | EmptyString => true
  | String c r => negb (Ascii.eqb c sep) && lacks sep r
  end.

(** ** The featured merge in the specification's words *)

Definition orElse {A} (x y : option A) : option A :=
  match x with
  | Some _ => x
  | None => y
  end.

(** "merged by preferring the featured record's fields and falling back
    to the base record's fields per-field" *)
Definition mergeFillGaps (featured base : Pub.t) : Pub.t :=
  {| Pub.id := Pub.id featured;
     Pub.name := orElse (Pub.name featured) (Pub.name base);
     Pub.city := orElse (Pub.city featured) (Pub.city base);
     Pub.yearFounded :=
       orElse (Pub.yearFounded featured) (Pub.yearFounded base);
     Pub.yearCeased := orElse (Pub.yearCeased featured) (Pub.yearCeased base);
     Pub.isActive := orElse (Pub.isActive featured) (Pub.isActive base);
     Pub.decade := orElse (Pub.decade featured) (Pub.decade base);
     Pub.medium := orElse (Pub.medium featured) (Pub.medium base);
     Pub.primaryFocus :=
       orElse (Pub.primaryFocus featured) (Pub.primaryFocus base);
     Pub.missionStatement :=
       orElse (Pub.missionStatement featured) (Pub.missionStatement base);
     Pub.historicalNotes :=
       orElse (Pub.historicalNotes featured) (Pub.historicalNotes base);
     Pub.publishers := orElse (Pub.publishers featured) (Pub.publishers base);
     Pub.tags := orElse (Pub.tags featured) (Pub.tags base) |}.

(** [missing x y]: the featured value [x] is absent although the base
    value [y] is present. *)
Definition missing {A} (x y : option A) : Prop := x = None /\ y <> None.

(** The featured record lacks no field that the base record has. *)
Definition covers (featured base : Pub.t) : Prop :=
  ~ missing (Pub.name featured) (Pub.name base)
  /\ ~ missing (Pub.city featured) (Pub.city base)
  /\ ~ missing (Pub.yearFounded featured) (Pub.yearFounded base)
  /\ ~ missing (Pub.yearCeased featured) (Pub.yearCeased base)
  /\ ~ missing (Pub.isActive featured) (Pub.isActive base)
  /\ ~ missing (Pub.decade featured) (Pub.decade base)
  /\ ~ missing (Pub.medium featured) (Pub.medium base)
  /\ ~ missing (Pub.primaryFocus featured) (Pub.primaryFocus base)
  /\ ~ missing (Pub.missionStatement featured) (Pub.missionStatement base)
  /\ ~ missing (Pub.historicalNotes featured) (Pub.historicalNotes base)
  /\ ~ missing (Pub.publishers featured) (Pub.publishers base)
  /\ ~ missing (Pub.tags featured) (Pub.tags base).

(** ** The search rule in the specification's words *)

(** [q] is a substring of [s]. *)
Definition Occurs (q s : string) : Prop :=
  exists pre post, s = (pre ++ q ++ post)%string.

(** The publishers field when it is a string. *)
Definition publisherText (f : option Publishers) : option string :=
  match f with
  | Some (PublisherName s) => Some s
  | _ => None
  end.

Definition present (f : option string) : list string :=
  match f with
  | Some s => [s]
  | None => []
  end.

(** The fixed field set: name, city, primaryFocus, missionStatement,
    publishers, historicalNotes, and every tag; absent fields skipped. *)
Definition searchFields (p : Pub.t) : list string :=
  (present (Pub.name p) ++ present (Pub.city p)
   ++ present (Pub.primaryFocus p) ++ present (Pub.missionStatement p)
   ++ present (publisherText (Pub.publishers p))
   ++ present (Pub.historicalNotes p)
   ++ match Pub.tags p with
      | Some l => l
      | None => []
      end)%list.

(** "the query is a substring of ANY of these fields", case-insensitive. *)
Definition specHit (q : string) (p : Pub.t) : bool :=
  existsb (fun s => includes (toLowerCase s) q) (searchFields p).

(** "A record matches if the trimmed, lower-cased query is a substring of
    ANY of these fields.  Empty/whitespace-only query matches
    everything." *)
Definition specSearch (query : string) (pubs : list Pub.t) : list Pub.t :=
  let q := toLowerCase (trim query) in
  if nonEmpty q then filter (specHit q) pubs else pubs.

(** No record carries its publishers as an array. *)
Definition publishersAreText (pubs : list Pub.t) : Prop :=
  forall p l, In p pubs -> Pub.publishers p <> Some (PublisherList l).

(** ** The status rule in the specification's words *)

(** "isActive !== false AND yearCeased is absent" *)
Definition specActive (p : Pub.t) : bool :=
  match Pub.isActive p, Pub.yearCeased p with
  | Some false, _ => false
  | _, Some _ => false
  | _, None => true
  end.

(** ** What a sort by year delivers *)

Definition yearAscKey (p : Pub.t) : Z := orNum (Pub.yearFounded p) 9999.
Definition yearDescKey (p : Pub.t) : Z := orNum (Pub.yearFounded p) 0.

(** "ascending by yearFounded; missing treated as +infinity (sentinel
    9999)", in the specification's words. *)
Definition specYearAscKey (p : Pub.t) : Z := nullish (Pub.yearFounded p) 9999.

(** [output] is [input] rearranged in the order [le] of the keys, records
    of equal key keeping their relative order. *)
Definition StableSortedBy (le : Z -> Z -> Prop) (key : Pub.t -> Z)
    (input output : list Pub.t) : Prop :=
  Permutation output input
  /\ StronglySorted (fun p q => le (key p) (key q)) output
  /\ (forall k, filter (fun p => (key p =? k)%Z) output
                = filter (fun p => (key p =? k)%Z) input).

(** ** Sample records and states *)

Definition blank (i : Z) : Pub.t :=
  {| Pub.id := i; Pub.name := None; Pub.city := None;
     Pub.yearFounded := None; Pub.yearCeased := None;
     Pub.isActive := None; Pub.decade := None; Pub.medium := None;
     Pub.primaryFocus := None; Pub.missionStatement := None;
     Pub.historicalNotes := None; Pub.publishers := None;
     Pub.tags := None |}.

Definition withYears (i : Z) (founded ceased : option Z) : Pub.t :=
  {| Pub.id := i; Pub.name := None; Pub.city := None;
     Pub.yearFounded := founded; Pub.yearCeased := ceased;
     Pub.isActive := None; Pub.decade := None; Pub.medium := None;
     Pub.primaryFocus := None; Pub.missionStatement := None;
     Pub.historicalNotes := None; Pub.publishers := None;
     Pub.tags := None |}.

Definition withText (i : Z) (nm notes : option string)
    (pubsh : option Publishers) : Pub.t :=
  {| Pub.id := i; Pub.name := nm; Pub.city := None;
     Pub.yearFounded := None; Pub.yearCeased := None;
     Pub.isActive := None; Pub.decade := None; Pub.medium := None;
     Pub.primaryFocus := None; Pub.missionStatement := None;
     Pub.historicalNotes := notes; Pub.publishers := pubsh;
     Pub.tags := None |}.

(** The record of scenarios A and B. *)
Definition afroAmerican : Pub.t :=
  {| Pub.id := 1; Pub.name := Some "Afro-American";
     Pub.city := Some "Jersey City";
     Pub.yearFounded := Some 1880%Z; Pub.yearCeased := None;
     Pub.isActive := None; Pub.decade := None; Pub.medium := None;
     Pub.primaryFocus := None; Pub.missionStatement := None;
     Pub.historicalNotes := None; Pub.publishers := None;
     Pub.tags := None |}.

Definition archiveState (pubs : list Pub.t) (f : Archive.Filters)
    (sortKey : string) (pg : nat) : Archive.State :=
  {| Archive.publications := pubs; Archive.filtered := pubs;
     Archive.filters := f; Archive.sort := sortKey;
     Archive.view := "grid"; Archive.page := pg; Archive.perPage := 24 |}.

Definition appState (pubs : list Pub.t) (f : App.Filters)
    (sortKey : string) (pg : nat) : App.State :=
  {| App.publications := pubs; App.filteredPublications := pubs;
     App.filters := f; App.sortBy := sortKey;
     App.currentPage := pg; App.perPage := 24 |}.

Definition threeRecords : list Pub.t :=
  [ withYears 1 (Some 1920%Z) None; withYears 2 None None;
    withYears 3 (Some 1890%Z) None ].

(** ** What the filters keep *)

(** The conjunction of the archive page's four filters; a filter at its
    sentinel ("all", or the empty query) lets every record pass. *)
Definition archiveKeeps (f : Archive.Filters) (p : Pub.t) : bool :=
  (negb (nonEmpty (Archive.search f))
   || specHit (toLowerCase (Archive.search f)) p)
  && (String.eqb (Archive.city f) "all"
      || strictEqStr (Pub.city p) (Archive.city f))
  && (String.eqb (Archive.decade f) "all"
      || strictEqStr (Pub.decade p) (Archive.decade f))
  && (String.eqb (Archive.status f) "all"
      || if String.eqb (Archive.status f) "active"
         then derivedActive p else derivedArchived p).

(** The fields the home page searches. *)
Definition appSearchFields (p : Pub.t) : list string :=
  (present (Pub.name p) ++ present (Pub.city p)
   ++ present (Pub.primaryFocus p) ++ present (Pub.missionStatement p)
   ++ present (publisherText (Pub.publishers p)))%list.

Definition appHit (q : string) (p : Pub.t) : bool :=
  existsb (fun s => includes (toLowerCase s) q) (appSearchFields p).

(** The conjunction of the home page's five filters. *)
Definition appKeeps (f : App.Filters) (p : Pub.t) : bool :=
  (negb (nonEmpty (App.search f)) || appHit (App.search f) p)
  && (String.eqb (App.city f) "all"
      || strictEqStr (Pub.city p) (App.city f))
  && (String.eqb (App.decade f) "all"
      || strictEqStr (Pub.decade p) (App.decade f))
  && (String.eqb (App.status f) "all"
      || App.storedFlagIs (String.eqb (App.status f) "active") p)
  && (String.eqb (App.format f) "all"
      || App.formatMatches (App.format f) p).

(** The record on which the archive page's search callback throws: its
    publishers are an array and none of the five fields tested before
    them contains the query. *)
Definition archiveTrips (q : string) (p : Pub.t) : Prop :=
  (exists l, Pub.publishers p = Some (PublisherList l))
  /\ Archive.fieldIncludes (Pub.name p) q = false
  /\ Archive.fieldIncludes (Pub.city p) q = false
  /\ Archive.fieldIncludes (Pub.missionStatement p) q = false
  /\ Archive.fieldIncludes (Pub.historicalNotes p) q = false
  /\ Archive.fieldIncludes (Pub.primaryFocus p) q = false.

(** The same for the home page, which tests four fields first. *)
Definition appTrips (q : string) (p : Pub.t) : Prop :=
  (exists l, Pub.publishers p = Some (PublisherList l))
  /\ App.fieldIncludes (Pub.name p) q = false
  /\ App.fieldIncludes (Pub.city p) q = false
  /\ App.fieldIncludes (Pub.primaryFocus p) q = false
  /\ App.fieldIncludes (Pub.missionStatement p) q = false.

(** ** The span of the timeline *)

(** The founding year lies between 1880 and 2029, the years the fifteen
    windows cover. *)
Definition foundedOnTimeline (p : Pub.t) : bool :=
  match Pub.yearFounded p with
  | Some y => (1880 <=? y)%Z && (y <=? 2029)%Z
  | None => false
  end.

(** ** Decimal digits *)

(** The string starts with a decimal digit. *)
Definition startsWithDigit (s : string) : Prop :=
  exists c r d, s = String c r /\ digitValue c = Some d.

(** Every byte is one the URL serializer leaves as it is. *)
Fixpoint allPlain (s : string) : bool :=
  match s with
  | EmptyString => true
  | String c r => URLSearchParams.isPlain c && allPlain r
  end.

(** * Properties *)

Local Open Scope list_scope.

(** ** Lists *)

Lemma firstn_prefix_le {A} (l : list A) (n m : nat) :
  n <= m -> exists more, firstn m l = firstn n l ++ more.
Proof.
  revert n m; induction l as [|x l IH]; intros n m Hnm.
  - exists []. now rewrite !firstn_nil.
  - destruct n as [|n].
    + exists (firstn m (x :: l)). reflexivity.
    + destruct m as [|m]; [lia|].
      destruct (IH n m) as [more Hmore]; [lia|].
      exists more. simpl. now rewrite Hmore.
Qed.

Lemma length_slice0 {A} (l : list A) (e : nat) :
  List.length (slice0 l e) = Nat.min e (List.length l).
Proof. unfold slice0. apply length_firstn. Qed.

Lemma filter_length_impl {A} (f g : A -> bool) (l : list A) :
  (forall x, In x l -> f x = true -> g x = true) ->
  List.length (filter f l) <= List.length (filter g l).
Proof.
  induction l as [|x l IH]; intros H; simpl; [lia|].
  assert (IH' : List.length (filter f l) <= List.length (filter g l)).
  { apply IH. intros y Hy. apply H. now right. }
  destruct (f x) eqn:Hf.
  - rewrite (H x (or_introl eq_refl) Hf). simpl. lia.
  - destruct (g x); simpl; lia.
Qed.

Lemma Counted_filter {A} (P : A -> Prop) (f : A -> bool) (l : list A) :
  (forall x, f x = true <-> P x) ->
  Counted P l (List.length (filter f l)).
Proof.
  intros Hf. induction l as [|x l IH]; simpl.
  - constructor.
  - destruct (f x) eqn:E; simpl.
    + apply Counted_hit; [now apply Hf | exact IH].
    + apply Counted_miss; [|exact IH].
      intros HP. apply Hf in HP. congruence.
Qed.

Lemma Counted_functional {A} (P : A -> Prop) (l : list A) (n m : nat) :
  Counted P l n -> Counted P l m -> n = m.
Proof.
  intros Hn. revert m.
  induction Hn; intros m Hm; inversion Hm; subst; auto; contradiction.
Qed.

(** ** Pagination *)

(** C7. The slice a render pass shows is the prefix of length
    [page * perPage] of the filtered list, one more page extends that
    prefix, and the load-more control is visible exactly when
    [page * perPage] is below the length of the list.  On the home page the
    control is also hidden whenever nothing is shown, which agrees with the
    rule for a positive page size. *)
Theorem visible_slice_grows (a : Archive.State) (b : App.State) :
  1 <= Archive.page a ->
  1 <= App.currentPage b ->
  (toShow (Archive.renderResults a)
     = firstn (Archive.page a * Archive.perPage a) (Archive.filtered a)
   /\ (exists more,
         toShow (Archive.renderResults (Archive.loadMore a))
         = toShow (Archive.renderResults a) ++ more)
   /\ (loadMoreVisible (Archive.renderResults a) = true
       <-> Archive.page a * Archive.perPage a
           < List.length (Archive.filtered a)))
  /\
  (toShow (App.renderPublications b)
     = firstn (App.currentPage b * App.perPage b) (App.filteredPublications b)
   /\ (exists more,
         toShow (App.renderPublications (App.loadMore b))
         = toShow (App.renderPublications b) ++ more)
   /\ (1 <= App.perPage b ->
       (loadMoreVisible (App.renderPublications b) = true
        <-> App.currentPage b * App.perPage b
            < List.length (App.filteredPublications b)))).
Proof.
  intros Ha Hb. split.
  - assert (Hshow : forall st,
      toShow (Archive.renderResults st)
      = firstn (Archive.page st * Archive.perPage st) (Archive.filtered st)).
    { intros st. unfold Archive.renderResults.
      now destruct (List.length (Archive.filtered st) =? 0)%nat. }
    split; [apply Hshow|]. split.
    + rewrite !Hshow. simpl. apply firstn_prefix_le. lia.
    + unfold Archive.renderResults.
      destruct (List.length (Archive.filtered a) =? 0)%nat eqn:E; simpl.
      * apply Nat.eqb_eq in E. split; [discriminate | lia].
      * rewrite Nat.ltb_lt, length_slice0. apply Nat.eqb_neq in E. lia.
  - assert (Hshow : forall st,
      toShow (App.renderPublications st)
      = firstn (App.currentPage st * App.perPage st)
          (App.filteredPublications st)).
    { intros st. unfold App.renderPublications.
      now destruct (List.length _ =? 0)%nat. }
    split; [apply Hshow|]. split.
    + rewrite !Hshow. simpl. apply firstn_prefix_le. lia.
    + intros Hn. unfold App.renderPublications.
      destruct (List.length (slice0 _ _) =? 0)%nat eqn:E; simpl.
      * apply Nat.eqb_eq in E. rewrite length_slice0 in E.
        split; [discriminate | nia].
      * now rewrite Nat.ltb_lt.
Qed.

Lemma visible_slice_grows_witness :
  toShow (Archive.renderResults
            (archiveState threeRecords
               (Archive.filters Archive.initialState) "name" 1))
  = threeRecords
  /\ toShow (App.renderPublications
               (appState threeRecords
                  (App.filters App.initialState) "name" 1))
     = threeRecords.
Proof.
  pose proof (visible_slice_grows
    (archiveState threeRecords (Archive.filters Archive.initialState)
       "name" 1)
    (appState threeRecords (App.filters App.initialState) "name" 1)) as H.
  destruct H as [[Ha _] [Hb _]]; [simpl; lia | simpl; lia |].
  split; [exact Ha | exact Hb].
Defined.

(** ** Sorting *)

Section SortFacts.
Variable localeCompare : string -> string -> Z.

(** C9. For a sort key outside "name", "year-asc", "year-desc" and
    "city" the sort returns its input unchanged, on the archive page and
    on the home page alike; being a total function it raises nothing. *)
Theorem sort_unknown_key_noop (a : Archive.State) (b : App.State)
    (lst : list Pub.t) :
  ~ recognizedKey (Archive.sort a) ->
  ~ recognizedKey (App.sortBy b) ->
  Archive.sortPublications localeCompare a lst = lst
  /\ App.sortPublications localeCompare b = b.
Proof.
  unfold recognizedKey. intros Ha Hb. split.
  - unfold Archive.sortPublications.
    repeat match goal with
    | |- context [String.eqb ?x ?y] =>
        destruct (String.eqb_spec x y); [tauto|]
    end.
    reflexivity.
  - unfold App.sortPublications.
    repeat match goal with
    | |- context [String.eqb ?x ?y] =>
        destruct (String.eqb_spec x y); [tauto|]
    end.
    now destruct b.
Qed.
End SortFacts.

Lemma sort_unknown_key_noop_witness :
  Archive.sortPublications codeUnitCompare
    (archiveState [] (Archive.filters Archive.initialState) "bogus" 1)
    threeRecords = threeRecords.
Proof.
  refine (proj1 (sort_unknown_key_noop codeUnitCompare
    (archiveState [] (Archive.filters Archive.initialState) "bogus" 1)
    (appState [] (App.filters App.initialState) "bogus" 1)
    threeRecords _ _));
  unfold recognizedKey; simpl; intros [H|[H|[H|H]]]; discriminate H.
Defined.

(** ** Decade aggregation *)

Lemma decades_bounds (d : Timeline.Decade) :
  In d Timeline.decades ->
  (1880 <= Timeline.start d <= 2020)%Z
  /\ Timeline.stop d = (Timeline.start d + 9)%Z.
Proof.
  unfold Timeline.decades. simpl.
  intros H. repeat (destruct H as [H|H]; [subst d; simpl; lia|]).
  contradiction.
Qed.

Lemma activeDuring_overlaps (d : Timeline.Decade) (p : Pub.t) :
  Timeline.activeDuring d p = true <-> overlaps d p.
Proof.
  unfold Timeline.activeDuring, overlaps.
  rewrite andb_true_iff, Z.leb_le, Z.geb_le. lia.
Qed.

Lemma foundedDuring_within (d : Timeline.Decade) (p : Pub.t) :
  In d Timeline.decades ->
  Timeline.foundedDuring d p = true <-> foundedWithin d p.
Proof.
  intros Hd. destruct (decades_bounds d Hd) as [Hs _].
  unfold Timeline.foundedDuring, foundedWithin, Timeline.toNumber.
  rewrite andb_true_iff, Z.leb_le, Z.geb_le.
  destruct (Pub.yearFounded p) as [y|].
  - split.
    + intros H. exists y. split; [reflexivity | lia].
    + intros [y' [E H]]. injection E as <-. lia.
  - split; [lia|]. intros [y [E _]]. discriminate E.
Qed.

Lemma window_calculateDecadeData (pubs : list Pub.t) :
  map Timeline.window (Timeline.calculateDecadeData pubs)
  = Timeline.decades.
Proof.
  unfold Timeline.calculateDecadeData. rewrite map_map. reflexivity.
Qed.

Lemma In_calculateDecadeData (pubs : list Pub.t) (b : Timeline.DecadeData) :
  In b (Timeline.calculateDecadeData pubs) ->
  In (Timeline.window b) Timeline.decades
  /\ Timeline.activeCount b
     = List.length (filter (Timeline.activeDuring (Timeline.window b)) pubs)
  /\ Timeline.foundedCount b
     = List.length (filter (Timeline.foundedDuring (Timeline.window b)) pubs)
  /\ Timeline.publications b
     = firstn 5 (filter (Timeline.activeDuring (Timeline.window b)) pubs).
Proof.
  unfold Timeline.calculateDecadeData. rewrite in_map_iff.
  intros [d [<- Hd]]. simpl. auto.
Qed.

(** C5, as the code has it.  The aggregation yields one bucket for each of
    the 15 decade windows, in order.  A bucket's [activeCount] is the
    number of records whose founding year, replaced by 9999 when absent or
    0, is at most the window's end and whose ceasing year, replaced by 2026
    when absent or 0, is at least the window's start; its [foundedCount] is
    the number of records whose founding year lies in the window.  A record
    founded 1875 and ceased 1920 overlaps the 1880s without being founded
    in them, and a record without a founding year meets neither condition
    for any window. *)
Theorem decade_counts (pubs : list Pub.t) :
  map Timeline.window (Timeline.calculateDecadeData pubs) = Timeline.decades
  /\ List.length (Timeline.calculateDecadeData pubs) = 15
  /\ (forall b, In b (Timeline.calculateDecadeData pubs) ->
        Counted (overlaps (Timeline.window b)) pubs (Timeline.activeCount b)
        /\ Counted (foundedWithin (Timeline.window b)) pubs
             (Timeline.foundedCount b))
  /\ (forall p, Pub.yearFounded p = Some 1875%Z ->
                Pub.yearCeased p = Some 1920%Z ->
        overlaps (Timeline.mkDecade "1880s" 1880 1889) p
        /\ ~ foundedWithin (Timeline.mkDecade "1880s" 1880 1889) p)
  /\ (forall p d, Pub.yearFounded p = None -> In d Timeline.decades ->
        ~ overlaps d p /\ ~ foundedWithin d p).
Proof.
  split; [apply window_calculateDecadeData|].
  split; [unfold Timeline.calculateDecadeData; now rewrite length_map|].
  split; [|split].
  - intros b Hb.
    destruct (In_calculateDecadeData pubs b Hb) as [Hd [-> [-> _]]].
    split; apply Counted_filter; intros p.
    + apply activeDuring_overlaps.
    + now apply foundedDuring_within.
  - intros p Hf Hc. unfold overlaps, foundedWithin. rewrite Hf, Hc. simpl.
    split; [lia|]. intros [y [E H]]. injection E as <-. lia.
  - intros p d Hf Hd. destruct (decades_bounds d Hd) as [Hs He].
    unfold overlaps, foundedWithin. rewrite Hf. simpl.
    split; [lia|]. intros [y [E _]]. discriminate E.
Qed.

Lemma decade_counts_witness :
  exists b, nth_error
      (Timeline.calculateDecadeData [withYears 7 (Some 1875%Z) (Some 1920%Z)])
      0 = Some b
    /\ Counted (overlaps (Timeline.window b))
         [withYears 7 (Some 1875%Z) (Some 1920%Z)] (Timeline.activeCount b)
    /\ Timeline.activeCount b = 1
    /\ Timeline.foundedCount b = 0.
Proof.
  eexists. split; [reflexivity|].
  split; [|split; reflexivity].
  refine (proj1 (proj1 (proj2 (proj2
    (decade_counts [withYears 7 (Some 1875%Z) (Some 1920%Z)]))) _ _)).
  simpl. left. reflexivity.
Defined.

(** C5 as stated fails: a record whose founding year is 0 has that year
    replaced by 9999, so it is left out of the 1880s [activeCount] although
    [0 <= 1889] and its defaulted ceasing year [2026 >= 1880]. *)
Lemma decade_counts_nullish_counterexample :
  ~ (forall pubs b, In b (Timeline.calculateDecadeData pubs) ->
       Counted (specOverlaps (Timeline.window b)) pubs
         (Timeline.activeCount b)).
Proof.
  intros H.
  specialize (H [withYears 1 (Some 0%Z) None]
    (Timeline.mkDecadeData (Timeline.mkDecade "1880s" 1880 1889) 0 0 [])).
  assert (Hc : Counted
    (specOverlaps (Timeline.mkDecade "1880s" 1880 1889))
    [withYears 1 (Some 0%Z) None] 0).
  { apply H. simpl. left. reflexivity. }
  inversion Hc as [| |x l n Hmiss Hrest]; subst.
  apply Hmiss. unfold specOverlaps. simpl. lia.
Qed.

(** C10. When every record that has both years ceased no earlier than it
    was founded, each bucket counts at least as many active records as
    founded ones. *)
Theorem founded_le_active (pubs : list Pub.t) :
  (forall p f c, In p pubs ->
     Pub.yearFounded p = Some f -> Pub.yearCeased p = Some c ->
     (f <= c)%Z) ->
  forall b, In b (Timeline.calculateDecadeData pubs) ->
    Timeline.foundedCount b <= Timeline.activeCount b.
Proof.
  intros Hinv b Hb.
  destruct (In_calculateDecadeData pubs b Hb) as [Hd [-> [-> _]]].
  destruct (decades_bounds _ Hd) as [Hs He].
  apply filter_length_impl. intros p Hp Hf.
  apply (foundedDuring_within _ p Hd) in Hf. destruct Hf as [y [Ey Hy]].
  apply activeDuring_overlaps. unfold overlaps. rewrite Ey.
  assert (Hy0 : (y =? 0)%Z = false) by (apply Z.eqb_neq; lia).
  simpl. rewrite Hy0. split; [lia|].
  destruct (Pub.yearCeased p) as [c|] eqn:Ec; simpl.
  - specialize (Hinv p y c Hp Ey Ec).
    assert (Hc0 : (c =? 0)%Z = false) by (apply Z.eqb_neq; lia).
    rewrite Hc0. lia.
  - lia.
Qed.

Lemma founded_le_active_witness :
  Forall (fun b => Timeline.foundedCount b <= Timeline.activeCount b)
    (Timeline.calculateDecadeData
       [withYears 1 (Some 1885%Z) (Some 1899%Z);
        withYears 2 (Some 1875%Z) None]).
Proof.
  apply Forall_forall.
  apply (founded_le_active
    [withYears 1 (Some 1885%Z) (Some 1899%Z); withYears 2 (Some 1875%Z) None]).
  intros p f c [Hp|[Hp|[]]] Hf Hc; subst p; simpl in Hf, Hc;
    try discriminate Hc.
  injection Hf as <-. injection Hc as <-. lia.
Defined.

(** ** The comparator sort *)

Section InsertionFacts.
Context {A : Type} (cmp : A -> A -> Z).

Lemma insert_perm (x : A) (l : list A) :
  Permutation (JS.insert cmp x l) (x :: l).
Proof.
  induction l as [|y l IH]; simpl; [reflexivity|].
  destruct (cmp x y <=? 0)%Z; [reflexivity|].
  rewrite IH. apply perm_swap.
Qed.

Lemma sort_perm (l : list A) : Permutation (JS.sort cmp l) l.
Proof.
  induction l as [|x l IH]; simpl; [constructor|].
  rewrite insert_perm. now constructor.
Qed.

(** A comparator that orders by an integer key. *)
Variable key : A -> Z.
Hypothesis cmp_key : forall a b, (cmp a b <= 0 <-> key a <= key b)%Z.

Lemma insert_sorted (x : A) (l : list A) :
  StronglySorted (fun a b => key a <= key b)%Z l ->
  StronglySorted (fun a b => key a <= key b)%Z (JS.insert cmp x l).
Proof.
  induction 1 as [|y l Hl IH Hy]; simpl.
  - repeat constructor.
  - destruct (cmp x y <=? 0)%Z eqn:E.
    + apply Z.leb_le, cmp_key in E.
      constructor; [now constructor|].
      constructor; [exact E|].
      eapply Forall_impl; [|exact Hy]. simpl. intros; lia.
    + apply Z.leb_gt in E.
      assert (Hyx : (key y <= key x)%Z).
      { destruct (Z.le_gt_cases (key x) (key y)) as [Hle|Hgt]; [|lia].
        apply cmp_key in Hle. lia. }
      constructor; [exact IH|].
      eapply Permutation_Forall; [symmetry; apply insert_perm|].
      now constructor.
Qed.

Lemma sort_sorted (l : list A) :
  StronglySorted (fun a b => key a <= key b)%Z (JS.sort cmp l).
Proof.
  induction l as [|x l IH]; simpl; [constructor|].
  now apply insert_sorted.
Qed.

Lemma insert_keeps_ties (k : Z) (x : A) (l : list A) :
  filter (fun a => (key a =? k)%Z) (JS.insert cmp x l)
  = filter (fun a => (key a =? k)%Z) (x :: l).
Proof.
  induction l as [|y l IH]; [reflexivity|].
  cbn [JS.insert]. destruct (cmp x y <=? 0)%Z eqn:E; [reflexivity|].
  apply Z.leb_gt in E.
  assert (Hlt : (key y < key x)%Z).
  { destruct (Z.le_gt_cases (key x) (key y)) as [Hle|Hgt]; [|lia].
    apply cmp_key in Hle. lia. }
  cbn [filter] in *. rewrite IH.
  destruct (key x =? k)%Z eqn:Ex; [|reflexivity].
  apply Z.eqb_eq in Ex.
  assert (Ey : (key y =? k)%Z = false) by (apply Z.eqb_neq; lia).
  now rewrite Ey.
Qed.

Lemma sort_keeps_ties (k : Z) (l : list A) :
  filter (fun a => (key a =? k)%Z) (JS.sort cmp l)
  = filter (fun a => (key a =? k)%Z) l.
Proof.
  induction l as [|x l IH]; [reflexivity|].
  cbn [JS.sort fold_right]. rewrite insert_keeps_ties.
  cbn [filter]. fold (JS.sort cmp l). now rewrite IH.
Qed.
End InsertionFacts.

Lemma sorted_after {A} (R : A -> A -> Prop) (l1 l2 : list A) (x y : A) :
  StronglySorted R (l1 ++ x :: l2) -> In y l2 -> R x y.
Proof.
  induction l1 as [|z l1 IH]; simpl; intros H Hy.
  - apply StronglySorted_inv in H. destruct H as [_ H].
    rewrite Forall_forall in H. now apply H.
  - apply StronglySorted_inv in H. destruct H as [H _]. now apply IH.
Qed.

Lemma sorted_weaken {A} (R S : A -> A -> Prop) (l : list A) :
  (forall a b, R a b -> S a b) -> StronglySorted R l -> StronglySorted S l.
Proof.
  intros HRS. induction 1 as [|x l Hl IH Hx]; constructor; [exact IH|].
  eapply Forall_impl; [|exact Hx]. apply HRS.
Qed.

Lemma sort_year_asc (l : list Pub.t) :
  StableSortedBy Z.le yearAscKey l
    (JS.sort (fun a b => orNum (Pub.yearFounded a) 9999
                         - orNum (Pub.yearFounded b) 9999)%Z l).
Proof.
  assert (H : forall a b : Pub.t,
    (orNum (Pub.yearFounded a) 9999 - orNum (Pub.yearFounded b) 9999 <= 0
     <-> yearAscKey a <= yearAscKey b)%Z)
    by (intros; unfold yearAscKey; lia).
  split; [apply sort_perm|].
  split; [now apply sort_sorted | intros k; now apply sort_keeps_ties].
Qed.

Lemma sort_year_desc (l : list Pub.t) :
  StableSortedBy Z.ge yearDescKey l
    (JS.sort (fun a b => orNum (Pub.yearFounded b) 0
                         - orNum (Pub.yearFounded a) 0)%Z l).
Proof.
  assert (H : forall a b : Pub.t,
    (orNum (Pub.yearFounded b) 0 - orNum (Pub.yearFounded a) 0 <= 0
     <-> - yearDescKey a <= - yearDescKey b)%Z)
    by (intros; unfold yearDescKey; lia).
  split; [apply sort_perm|]. split.
  - eapply sorted_weaken;
      [|exact (sort_sorted _ (fun p => (- yearDescKey p)%Z) H l)].
    simpl. intros; lia.
  - intros k.
    pose proof (sort_keeps_ties _ (fun p => (- yearDescKey p)%Z) H (- k) l)
      as E.
    assert (Hext : forall p : Pub.t,
      (yearDescKey p =? k)%Z = (- yearDescKey p =? - k)%Z).
    { intros p.
      destruct (Z.eqb_spec (yearDescKey p) k),
               (Z.eqb_spec (- yearDescKey p) (- k)); try reflexivity; lia. }
    rewrite (filter_ext _ _ Hext), (filter_ext _ _ Hext). exact E.
Qed.

Lemma archive_sort_year_asc lc (a : Archive.State) (lst : list Pub.t) :
  Archive.sort a = "year-asc" ->
  Archive.sortPublications lc a lst
  = JS.sort (fun p q => orNum (Pub.yearFounded p) 9999
                        - orNum (Pub.yearFounded q) 9999)%Z lst.
Proof. intros H. unfold Archive.sortPublications. now rewrite H. Qed.

Lemma archive_sort_year_desc lc (a : Archive.State) (lst : list Pub.t) :
  Archive.sort a = "year-desc" ->
  Archive.sortPublications lc a lst
  = JS.sort (fun p q => orNum (Pub.yearFounded q) 0
                        - orNum (Pub.yearFounded p) 0)%Z lst.
Proof. intros H. unfold Archive.sortPublications. now rewrite H. Qed.

Lemma app_sort_year_asc lc (b : App.State) :
  App.sortBy b = "year-asc" ->
  App.filteredPublications (App.sortPublications lc b)
  = JS.sort (fun p q => orNum (Pub.yearFounded p) 9999
                        - orNum (Pub.yearFounded q) 9999)%Z
      (App.filteredPublications b).
Proof. intros H. unfold App.sortPublications. now rewrite H. Qed.

Lemma app_sort_year_desc lc (b : App.State) :
  App.sortBy b = "year-desc" ->
  App.filteredPublications (App.sortPublications lc b)
  = JS.sort (fun p q => orNum (Pub.yearFounded q) 0
                        - orNum (Pub.yearFounded p) 0)%Z
      (App.filteredPublications b).
Proof. intros H. unfold App.sortPublications. now rewrite H. Qed.

Lemma missing_year_asc_after (input out l1 l2 : list Pub.t) (p q : Pub.t) :
  StableSortedBy Z.le yearAscKey input out ->
  out = l1 ++ p :: l2 -> Pub.yearFounded p = None -> In q l2 ->
  forall y, Pub.yearFounded q = Some y -> (y = 0 \/ 9999 <= y)%Z.
Proof.
  intros [_ [Hs _]] -> Hp Hq y Hy.
  pose proof (sorted_after _ _ _ _ _ Hs Hq) as H. simpl in H.
  unfold yearAscKey in H. rewrite Hp, Hy in H. simpl in H.
  destruct (Z.eqb_spec y 0); lia.
Qed.

Lemma missing_year_desc_after (input out l1 l2 : list Pub.t) (p q : Pub.t) :
  StableSortedBy Z.ge yearDescKey input out ->
  out = l1 ++ p :: l2 -> Pub.yearFounded p = None -> In q l2 ->
  forall y, Pub.yearFounded q = Some y -> (y <= 0)%Z.
Proof.
  intros [_ [Hs _]] -> Hp Hq y Hy.
  pose proof (sorted_after _ _ _ _ _ Hs Hq) as H. simpl in H.
  unfold yearDescKey in H. rewrite Hp, Hy in H. simpl in H.
  destruct (Z.eqb_spec y 0); lia.
Qed.

Section YearSort.
Variable localeCompare : string -> string -> Z.

(** C8, as the code has it.  Sorting by "year-asc" rearranges the records
    in ascending order of [yearFounded], a missing or zero year counting as
    9999, with ties in input order; so a record placed after a
    missing-year record has no year between 1 and 9998.  Sorting by
    "year-desc" rearranges them in descending order, a missing year
    counting as 0; so a record placed after a missing-year record has no
    positive year.  Both controllers agree, and the years 1920, missing,
    1890 come out as 1890, 1920, missing under "year-asc". *)
Theorem year_sort_order (a : Archive.State) (b : App.State)
    (lst : list Pub.t) :
  (Archive.sort a = "year-asc" ->
     StableSortedBy Z.le yearAscKey lst
       (Archive.sortPublications localeCompare a lst)
     /\ (forall l1 p l2 q y,
           Archive.sortPublications localeCompare a lst = l1 ++ p :: l2 ->
           Pub.yearFounded p = None -> In q l2 ->
           Pub.yearFounded q = Some y -> (y = 0 \/ 9999 <= y)%Z)
     /\ map Pub.yearFounded
          (Archive.sortPublications localeCompare a threeRecords)
        = [Some 1890%Z; Some 1920%Z; None])
  /\ (Archive.sort a = "year-desc" ->
        StableSortedBy Z.ge yearDescKey lst
          (Archive.sortPublications localeCompare a lst)
        /\ (forall l1 p l2 q y,
              Archive.sortPublications localeCompare a lst = l1 ++ p :: l2 ->
              Pub.yearFounded p = None -> In q l2 ->
              Pub.yearFounded q = Some y -> (y <= 0)%Z))
  /\ (App.sortBy b = "year-asc" ->
        StableSortedBy Z.le yearAscKey (App.filteredPublications b)
          (App.filteredPublications (App.sortPublications localeCompare b))
        /\ (forall l1 p l2 q y,
              App.filteredPublications (App.sortPublications localeCompare b)
              = l1 ++ p :: l2 ->
              Pub.yearFounded p = None -> In q l2 ->
              Pub.yearFounded q = Some y -> (y = 0 \/ 9999 <= y)%Z))
  /\ (App.sortBy b = "year-desc" ->
        StableSortedBy Z.ge yearDescKey (App.filteredPublications b)
          (App.filteredPublications (App.sortPublications localeCompare b))
        /\ (forall l1 p l2 q y,
              App.filteredPublications (App.sortPublications localeCompare b)
              = l1 ++ p :: l2 ->
              Pub.yearFounded p = None -> In q l2 ->
              Pub.yearFounded q = Some y -> (y <= 0)%Z)).
Proof.
  split; [|split; [|split]].
  - intros H.
    pose proof (sort_year_asc lst) as Hs.
    rewrite <- (archive_sort_year_asc localeCompare a lst H) in Hs.
    split; [exact Hs|]. split.
    + intros l1 p l2 q y E Hp Hq Hy.
      exact (missing_year_asc_after _ _ _ _ _ _ Hs E Hp Hq y Hy).
    + rewrite (archive_sort_year_asc localeCompare a _ H). reflexivity.
  - intros H.
    pose proof (sort_year_desc lst) as Hs.
    rewrite <- (archive_sort_year_desc localeCompare a lst H) in Hs.
    split; [exact Hs|].
    intros l1 p l2 q y E Hp Hq Hy.
    exact (missing_year_desc_after _ _ _ _ _ _ Hs E Hp Hq y Hy).
  - intros H.
    pose proof (sort_year_asc (App.filteredPublications b)) as Hs.
    rewrite <- (app_sort_year_asc localeCompare b H) in Hs.
    split; [exact Hs|].
    intros l1 p l2 q y E Hp Hq Hy.
    exact (missing_year_asc_after _ _ _ _ _ _ Hs E Hp Hq y Hy).
  - intros H.
    pose proof (sort_year_desc (App.filteredPublications b)) as Hs.
    rewrite <- (app_sort_year_desc localeCompare b H) in Hs.
    split; [exact Hs|].
    intros l1 p l2 q y E Hp Hq Hy.
    exact (missing_year_desc_after _ _ _ _ _ _ Hs E Hp Hq y Hy).
Qed.
End YearSort.

Lemma year_sort_order_witness :
  map Pub.yearFounded
    (Archive.sortPublications codeUnitCompare
       (archiveState [] (Archive.filters Archive.initialState) "year-asc" 1)
       threeRecords)
  = [Some 1890%Z; Some 1920%Z; None].
Proof.
  refine (proj2 (proj2 (proj1 (year_sort_order codeUnitCompare
    (archiveState [] (Archive.filters Archive.initialState) "year-asc" 1)
    (appState [] (App.filters App.initialState) "year-asc" 1)
    []) _))).
  reflexivity.
Defined.

(** C8 as stated fails: a founding year of 0 is replaced by 9999 like a
    missing one, so the record of year 0 is placed after the record of
    year 1900 and the output is not ascending by [yearFounded]. *)
Lemma year_sort_zero_counterexample :
  ~ StronglySorted (fun p q => (specYearAscKey p <= specYearAscKey q)%Z)
      (Archive.sortPublications codeUnitCompare
         (archiveState [] (Archive.filters Archive.initialState)
            "year-asc" 1)
         [withYears 1 (Some 1900%Z) None; withYears 2 (Some 0%Z) None]).
Proof.
  intros H. apply StronglySorted_inv in H. destruct H as [_ H].
  apply Forall_inv in H. unfold specYearAscKey in H. simpl in H. lia.
Qed.

(** ** The status filter *)

Lemma derivedActive_iff (p : Pub.t) :
  derivedActive p = true
  <-> Pub.isActive p <> Some false
      /\ (Pub.yearCeased p = None \/ Pub.yearCeased p = Some 0%Z).
Proof.
  unfold derivedActive, truthyNum.
  destruct (Pub.isActive p) as [[|]|], (Pub.yearCeased p) as [c|];
    try (destruct (Z.eqb_spec c 0); subst); simpl;
    intuition (try congruence; try discriminate).
Qed.

Lemma derivedArchived_complement (p : Pub.t) :
  derivedArchived p = negb (derivedActive p).
Proof.
  unfold derivedArchived, derivedActive.
  destruct (Pub.isActive p) as [[|]|]; now rewrite ?negb_involutive.
Qed.

Lemma archive_sort_perm lc (a : Archive.State) (l : list Pub.t) :
  Permutation (Archive.sortPublications lc a l) l.
Proof.
  unfold Archive.sortPublications.
  repeat match goal with
  | |- context [if ?c then _ else _] => destruct c
  end; try apply sort_perm. reflexivity.
Qed.

Lemma app_sort_perm lc (b : App.State) :
  Permutation (App.filteredPublications (App.sortPublications lc b))
    (App.filteredPublications b).
Proof.
  unfold App.sortPublications. simpl.
  repeat match goal with
  | |- context [if ?c then _ else _] => destruct c
  end; try apply sort_perm. reflexivity.
Qed.

Section StatusFilter.
Variable localeCompare : string -> string -> Z.

(** C1, as the code has it.  On the archive page, with the other filters
    at their defaults, the status filter "active" leaves exactly the
    records whose [isActive] is not [false] and whose [yearCeased] is
    absent or 0, in the order the sort gives them; any other status than
    "all" and "active" leaves exactly the remaining records; "all" leaves
    every record, on the home page too.  The record of scenario B, which
    has no stored flag and no ceasing year, is dropped by "archived" in
    both controllers. *)
Theorem status_filter (a : Archive.State) (b : App.State) :
  Archive.search (Archive.filters a) = EmptyString ->
  Archive.city (Archive.filters a) = "all" ->
  Archive.decade (Archive.filters a) = "all" ->
  (exists a',
     Archive.applyFilters localeCompare a = Normal a'
     /\ (forall l, Permutation (Archive.sortPublications localeCompare a l) l)
     /\ (Archive.status (Archive.filters a) = "active" ->
         Archive.filtered a'
         = Archive.sortPublications localeCompare a
             (filter derivedActive (Archive.publications a)))
     /\ (Archive.status (Archive.filters a) = "archived" ->
         Archive.filtered a'
         = Archive.sortPublications localeCompare a
             (filter (fun p => negb (derivedActive p))
                (Archive.publications a)))
     /\ (Archive.status (Archive.filters a) = "all" ->
         Archive.filtered a'
         = Archive.sortPublications localeCompare a (Archive.publications a)))
  /\ (forall p, derivedActive p = true
        <-> Pub.isActive p <> Some false
            /\ (Pub.yearCeased p = None \/ Pub.yearCeased p = Some 0%Z))
  /\ (App.filters b = App.filters App.initialState ->
      exists b', App.applyFilters localeCompare b = Normal b'
        /\ Permutation (App.filteredPublications b') (App.publications b))
  /\ (exists a',
        Archive.applyFilters localeCompare
          (archiveState [afroAmerican]
             (Archive.mkFilters EmptyString "all" "all" "archived") "name" 1)
        = Normal a' /\ Archive.filtered a' = [])
  /\ (exists b',
        App.applyFilters localeCompare
          (appState [afroAmerican]
             (App.mkFilters EmptyString "all" "all" "archived" "all") "name" 1)
        = Normal b' /\ App.filteredPublications b' = []).
Proof.
  intros Hs Hc Hd. split; [|split; [|split; [|split]]].
  - destruct a as [pubs filt [s c d stt] srt vw pg pp].
    simpl in Hs, Hc, Hd. subst s c d.
    unfold Archive.applyFilters. cbn.
    eexists. split; [reflexivity|]. cbn.
    split; [intros l; apply archive_sort_perm|].
    split; [|split]; intros ->; cbn; try reflexivity.
    f_equal. apply filter_ext. apply derivedArchived_complement.
  - apply derivedActive_iff.
  - destruct b as [pubs filt f srt pg pp]. simpl. intros ->.
    unfold App.applyFilters. cbn.
    eexists. split; [reflexivity|].
    apply (app_sort_perm localeCompare
      (App.mkState pubs pubs (App.filters App.initialState) srt pg pp)).
  - eexists. split; reflexivity.
  - eexists. split; reflexivity.
Qed.
End StatusFilter.

Lemma status_filter_witness :
  exists a',
    Archive.applyFilters codeUnitCompare
      (archiveState [afroAmerican; withYears 2 (Some 1900%Z) (Some 1950%Z)]
         (Archive.mkFilters EmptyString "all" "all" "active") "name" 1)
    = Normal a'
    /\ Archive.filtered a' = [afroAmerican].
Proof.
  destruct (status_filter codeUnitCompare
    (archiveState [afroAmerican; withYears 2 (Some 1900%Z) (Some 1950%Z)]
       (Archive.mkFilters EmptyString "all" "all" "active") "name" 1)
    (appState [] (App.filters App.initialState) "name" 1)
    eq_refl eq_refl eq_refl) as [[a' [Ha [_ [Hact _]]]] _].
  exists a'. split; [exact Ha|].
  rewrite (Hact eq_refl). reflexivity.
Defined.

(** C1 as stated fails in two places.  On the archive page a ceasing year
    of 0 counts as absent, so such a record passes "active" although its
    [yearCeased] is present.  On the home page the stored flag is compared
    with [===], so a record without a stored flag is dropped by "active"
    although its [isActive] is not [false] and its [yearCeased] is
    absent. *)
Lemma status_filter_counterexample :
  (exists a',
     Archive.applyFilters codeUnitCompare
       (archiveState [withYears 1 (Some 1880%Z) (Some 0%Z)]
          (Archive.mkFilters EmptyString "all" "all" "active") "name" 1)
     = Normal a'
     /\ Archive.filtered a' = [withYears 1 (Some 1880%Z) (Some 0%Z)]
     /\ filter specActive [withYears 1 (Some 1880%Z) (Some 0%Z)] = [])
  /\ (exists b',
        App.applyFilters codeUnitCompare
          (appState [afroAmerican]
             (App.mkFilters EmptyString "all" "all" "active" "all") "name" 1)
        = Normal b'
        /\ App.filteredPublications b' = []
        /\ filter specActive [afroAmerican] = [afroAmerican]).
Proof.
  split; eexists; repeat split; reflexivity.
Qed.

(** ** Strings *)

Lemma startsWith_iff (s q : string) :
  startsWith s q = true <-> exists post, s = (q ++ post)%string.
Proof.
  revert s. induction q as [|a q IH]; intros s.
  - destruct s; simpl; split; eauto.
  - destruct s as [|b s]; simpl.
    + split; [discriminate | intros [post H]; discriminate H].
    + rewrite andb_true_iff, Ascii.eqb_eq, IH. split.
      * intros [-> [post ->]]. now exists post.
      * intros [post H]. injection H as -> ->. split; eauto.
Qed.

Lemma includes_iff (s q : string) : includes s q = true <-> Occurs q s.
Proof.
  unfold Occurs. induction s as [|c s IH].
  - cbn [includes]. rewrite orb_false_r, startsWith_iff. split.
    + intros [post H]. now exists EmptyString, post.
    + intros [[|a pre] [post H]]; [now exists post | discriminate H].
  - cbn [includes]. rewrite orb_true_iff, startsWith_iff, IH. split.
    + intros [[post H]|[pre [post H]]].
      * now exists EmptyString, post.
      * exists (String c pre), post. simpl. now rewrite H.
    + intros [[|a pre] [post H]].
      * left. now exists post.
      * right. injection H as -> ->. now exists pre, post.
Qed.

Lemma includes_empty_field (q : string) :
  nonEmpty q = true -> includes EmptyString q = false.
Proof. now destruct q. Qed.

Lemma lowerChar_idempotent (c : ascii) :
  lowerChar (lowerChar c) = lowerChar c.
Proof. destruct c as [[] [] [] [] [] [] [] []]; reflexivity. Qed.

Lemma toLowerCase_idempotent (s : string) :
  toLowerCase (toLowerCase s) = toLowerCase s.
Proof.
  induction s as [|c s IH]; simpl; [reflexivity|].
  now rewrite lowerChar_idempotent, IH.
Qed.

Lemma nonEmpty_toLowerCase (s : string) :
  nonEmpty (toLowerCase s) = nonEmpty s.
Proof. now destruct s. Qed.

(** ** Filters whose callback cannot throw *)

Lemma filterM_total {A} (f : A -> Completion bool) (g : A -> bool)
    (l : list A) :
  (forall x, In x l -> f x = Normal (g x)) ->
  filterM f l = Normal (filter g l).
Proof.
  induction l as [|x l IH]; intros H; simpl; [reflexivity|].
  rewrite (H x (or_introl eq_refl)). simpl.
  rewrite IH by (intros y Hy; apply H; now right). reflexivity.
Qed.

(** ** The search filter *)

Lemma archive_fieldIncludes_present (f : option string) (q : string) :
  nonEmpty q = true ->
  Archive.fieldIncludes f q
  = existsb (fun s => includes (toLowerCase s) q) (present f).
Proof.
  intros Hq. destruct f as [[|c r]|]; simpl; try reflexivity.
  - destruct q; [discriminate Hq | reflexivity].
  - now rewrite orb_false_r.
Qed.

Lemma archive_searchMatches_spec (q : string) (p : Pub.t) :
  nonEmpty q = true ->
  (forall l, Pub.publishers p <> Some (PublisherList l)) ->
  Archive.searchMatches q p = Normal (specHit q p).
Proof.
  intros Hq Hp.
  assert (Hpub : Archive.publishersIncludes (Pub.publishers p) q
    = Normal (existsb (fun s => includes (toLowerCase s) q)
                (present (publisherText (Pub.publishers p))))).
  { destruct (Pub.publishers p) as [[s|l]|]; simpl.
    - f_equal. apply (archive_fieldIncludes_present (Some s) q Hq).
    - now destruct (Hp l).
    - reflexivity. }
  unfold Archive.searchMatches, specHit, searchFields.
  rewrite Hpub, !existsb_app.
  rewrite !(archive_fieldIncludes_present _ q Hq).
  unfold Archive.tagsInclude.
  set (f := fun s => includes (toLowerCase s) q).
  destruct (existsb f (present (Pub.name p))),
           (existsb f (present (Pub.city p))),
           (existsb f (present (Pub.missionStatement p))),
           (existsb f (present (Pub.historicalNotes p))),
           (existsb f (present (Pub.primaryFocus p))),
           (existsb f (present (publisherText (Pub.publishers p))));
    simpl; rewrite ?orb_true_r; try reflexivity;
    now destruct (Pub.tags p).
Qed.

Lemma specHit_iff (q : string) (p : Pub.t) :
  specHit q p = true
  <-> exists s, In s (searchFields p) /\ Occurs q (toLowerCase s).
Proof.
  unfold specHit. rewrite existsb_exists.
  split; intros [s [Hs H]]; exists s; split; auto; now apply includes_iff.
Qed.

Lemma archive_sort_only_key lc (a a' : Archive.State) (l : list Pub.t) :
  Archive.sort a' = Archive.sort a ->
  Archive.sortPublications lc a' l = Archive.sortPublications lc a l.
Proof. intros H. unfold Archive.sortPublications. now rewrite H. Qed.

Lemma archive_applyFilters_search lc (a : Archive.State) :
  Archive.city (Archive.filters a) = "all" ->
  Archive.decade (Archive.filters a) = "all" ->
  Archive.status (Archive.filters a) = "all" ->
  publishersAreText (Archive.publications a) ->
  exists a',
    Archive.applyFilters lc a = Normal a'
    /\ Archive.filtered a'
       = Archive.sortPublications lc a
           (if nonEmpty (Archive.search (Archive.filters a))
            then filter
                   (specHit (toLowerCase (Archive.search (Archive.filters a))))
                   (Archive.publications a)
            else Archive.publications a).
Proof.
  destruct a as [pubs filt [s c d stt] srt vw pg pp]. simpl.
  intros -> -> -> Hp. unfold Archive.applyFilters. cbn -[nonEmpty filterM].
  destruct (nonEmpty s) eqn:Es.
  - rewrite (filterM_total _ (specHit (toLowerCase s))).
    + cbn. eexists. split; reflexivity.
    + intros p Hin. apply archive_searchMatches_spec.
      * now rewrite nonEmpty_toLowerCase.
      * intros l. now apply Hp.
  - cbn. eexists. split; reflexivity.
Qed.

Section SearchFilter.
Variable localeCompare : string -> string -> Z.

(** C2, as the archive page has it.  With the other filters at their
    defaults and no record carrying its publishers as an array, an empty
    stored query keeps every record, and a non-empty stored query keeps
    exactly the records in which the lower-cased query occurs in the
    lower-cased name, city, primaryFocus, missionStatement, publishers,
    historicalNotes or some tag, absent fields skipped; the kept records
    come out in sort order.  The search box stores its input trimmed and
    lower-cased, so for a query typed there the kept records are those of
    the rule for the trimmed, lower-cased query, and an empty or
    white-space query keeps every record. *)
Theorem search_filter (a : Archive.State) (value : string) :
  Archive.city (Archive.filters a) = "all" ->
  Archive.decade (Archive.filters a) = "all" ->
  Archive.status (Archive.filters a) = "all" ->
  publishersAreText (Archive.publications a) ->
  (exists a',
     Archive.applyFilters localeCompare a = Normal a'
     /\ Archive.filtered a'
        = Archive.sortPublications localeCompare a
            (if nonEmpty (Archive.search (Archive.filters a))
             then filter
                    (specHit
                       (toLowerCase (Archive.search (Archive.filters a))))
                    (Archive.publications a)
             else Archive.publications a))
  /\ (exists a',
        Archive.onSearchInput localeCompare value a = Normal a'
        /\ Archive.filtered a'
           = Archive.sortPublications localeCompare a
               (specSearch value (Archive.publications a)))
  /\ (forall q p,
        specHit q p = true
        <-> exists s, In s (searchFields p) /\ Occurs q (toLowerCase s))
  /\ (forall l, Permutation (Archive.sortPublications localeCompare a l) l).
Proof.
  intros Hc Hd Hs Hp. split; [|split; [|split]].
  - now apply archive_applyFilters_search.
  - unfold Archive.onSearchInput.
    match goal with
    | |- context [Archive.applyFilters _ ?st] =>
        destruct (archive_applyFilters_search localeCompare st)
          as [a' [Ha Hf]]; try assumption
    end.
    exists a'. split; [exact Ha|]. rewrite Hf. cbn.
    rewrite toLowerCase_idempotent.
    unfold specSearch. now apply archive_sort_only_key.
  - apply specHit_iff.
  - intros l. apply archive_sort_perm.
Qed.
End SearchFilter.

Lemma search_filter_witness :
  exists a',
    Archive.onSearchInput codeUnitCompare "  Afro "
      (archiveState [afroAmerican; withText 2 (Some "Echo") None None]
         (Archive.filters Archive.initialState) "name" 1)
    = Normal a'
    /\ Archive.filtered a' = [afroAmerican].
Proof.
  destruct (search_filter codeUnitCompare
    (archiveState [afroAmerican; withText 2 (Some "Echo") None None]
       (Archive.filters Archive.initialState) "name" 1) "  Afro ")
    as [_ [[a' [Ha Hf]] _]];
    [reflexivity | reflexivity | reflexivity | |].
  - intros p l [<-|[<-|[]]]; discriminate.
  - exists a'. split; [exact Ha|]. rewrite Hf. reflexivity.
Defined.

(** C2 as stated fails in two places.  On the archive page the stored
    query is lower-cased but not trimmed, so a query of one space, as a
    URL can seed it, keeps only the records that contain a space.  On the
    home page the historical notes and the tags are not searched. *)
Lemma search_filter_counterexample :
  (exists a',
     Archive.applyFilters codeUnitCompare
       (archiveState [withText 1 (Some "x") None None]
          (Archive.mkFilters " " "all" "all" "all") "name" 1)
     = Normal a'
     /\ Archive.filtered a' = []
     /\ specSearch " " [withText 1 (Some "x") None None]
        = [withText 1 (Some "x") None None])
  /\ (exists b',
        App.applyFilters codeUnitCompare
          (appState [withText 1 (Some "x") (Some "abolition") None]
             (App.mkFilters "abolition" "all" "all" "all" "all") "name" 1)
        = Normal b'
        /\ App.filteredPublications b' = []
        /\ specSearch "abolition"
             [withText 1 (Some "x") (Some "abolition") None]
           = [withText 1 (Some "x") (Some "abolition") None]).
Proof.
  split; eexists; repeat split; reflexivity.
Qed.

(** C4 fails on the code: with a record whose publishers are an array and
    whose earlier fields do not match the query, the search callback calls
    [toLowerCase] on the array and the filter throws a [TypeError], on the
    archive page and on the home page. *)
Theorem applyFilters_publishers_array_throws :
  Archive.applyFilters codeUnitCompare
    (archiveState
       [withText 1 (Some "Echo") None (Some (PublisherList ["Press"]))]
       (Archive.mkFilters "press" "all" "all" "all") "name" 1)
  = Throw TypeError
  /\ App.applyFilters codeUnitCompare
       (appState
          [withText 1 (Some "Echo") None (Some (PublisherList ["Press"]))]
          (App.mkFilters "press" "all" "all" "all" "all") "name" 1)
     = Throw TypeError.
Proof. split; reflexivity. Qed.

(** ** The detail-page lookup *)

Lemma orElse_keeps {A} (x y : option A) :
  orElse x y = x <-> ~ missing x y.
Proof.
  unfold missing. destruct x as [v|]; simpl.
  - split; [intros _ [E _]; discriminate E | reflexivity].
  - split.
    + intros -> [_ H]. now apply H.
    + intros H. destruct y as [w|]; [|reflexivity].
      exfalso. apply H. split; [reflexivity | discriminate].
Qed.

Lemma mergeFillGaps_fixes (f b : Pub.t) :
  mergeFillGaps f b = f <-> covers f b.
Proof.
  unfold covers. rewrite <- !orElse_keeps. split.
  - intros H.
    repeat split;
      [ exact (f_equal Pub.name H) | exact (f_equal Pub.city H)
      | exact (f_equal Pub.yearFounded H) | exact (f_equal Pub.yearCeased H)
      | exact (f_equal Pub.isActive H) | exact (f_equal Pub.decade H)
      | exact (f_equal Pub.medium H) | exact (f_equal Pub.primaryFocus H)
      | exact (f_equal Pub.missionStatement H)
      | exact (f_equal Pub.historicalNotes H)
      | exact (f_equal Pub.publishers H) | exact (f_equal Pub.tags H) ].
  - intros (H1 & H2 & H3 & H4 & H5 & H6 & H7 & H8 & H9 & H10 & H11 & H12).
    destruct f. unfold mergeFillGaps. simpl in *. now f_equal.
Qed.

(** C3, as the code has it.  When a featured document (the historic one
    first, then the contemporary one) has a record of the requested id, the
    lookup returns that record alone, tagged with its source
    (['featured-historic'] for a record of the historic document,
    ['featured-contemporary'] for one of the contemporary document),
    whatever the base list holds; so it equals the fill-gaps merge with the
    base record of that id exactly when the featured record lacks no field
    the base record has.  The base record, tagged ['main'], is returned
    only when no featured record has the id. *)
Theorem findPublication_featured_first (fp : Detail.Featured)
    (allPublications : list Pub.t) (id : Z) :
  (forall f,
     find (Detail.byId id) (Detail.historic fp) = Some f ->
     Detail.findPublication fp allPublications id
     = Some (Detail.mkFound f Detail.FeaturedHistoric))
  /\ (forall f,
        find (Detail.byId id) (Detail.historic fp) = None ->
        find (Detail.byId id) (Detail.contemporary fp) = Some f ->
        Detail.findPublication fp allPublications id
        = Some (Detail.mkFound f Detail.FeaturedContemporary))
  /\ (forall f,
        (find (Detail.byId id) (Detail.historic fp) = Some f
         \/ (find (Detail.byId id) (Detail.historic fp) = None
             /\ find (Detail.byId id) (Detail.contemporary fp) = Some f)) ->
        exists r,
          Detail.findPublication fp allPublications id = Some r
          /\ Detail.pub r = f
          /\ Detail._source r <> Detail.Main
          /\ (forall b, find (Detail.byId id) allPublications = Some b ->
                (Detail.pub r = mergeFillGaps f b <-> covers f b)))
  /\ (find (Detail.byId id) (Detail.historic fp) = None ->
      find (Detail.byId id) (Detail.contemporary fp) = None ->
      Detail.findPublication fp allPublications id
      = option_map (fun p => Detail.mkFound p Detail.Main)
          (find (Detail.byId id) allPublications)).
Proof.
  split; [|split; [|split]].
  - intros f Hh. unfold Detail.findPublication. now rewrite Hh.
  - intros f Hh Hc. unfold Detail.findPublication. now rewrite Hh, Hc.
  - intros f Hf. unfold Detail.findPublication.
    destruct Hf as [Hh|[Hh Hc]]; rewrite Hh; [|rewrite Hc];
      eexists; (split; [reflexivity|]); simpl;
      (split; [reflexivity|]); (split; [discriminate|]);
      intros b _; rewrite <- mergeFillGaps_fixes;
      split; intros E; now symmetry.
  - intros Hh Hc. unfold Detail.findPublication. rewrite Hh, Hc.
    now destruct (find (Detail.byId id) allPublications).
Qed.

Lemma findPublication_featured_first_witness :
  Detail.findPublication
    (Detail.mkFeatured [withText 1 (Some "Afro-American") None None] [])
    [afroAmerican] 1
  = Some (Detail.mkFound (withText 1 (Some "Afro-American") None None)
            Detail.FeaturedHistoric)
  /\ Detail.findPublication
       (Detail.mkFeatured [] [withText 1 (Some "Afro-American") None None])
       [afroAmerican] 1
     = Some (Detail.mkFound (withText 1 (Some "Afro-American") None None)
               Detail.FeaturedContemporary).
Proof.
  split.
  - apply (proj1 (findPublication_featured_first
      (Detail.mkFeatured [withText 1 (Some "Afro-American") None None] [])
      [afroAmerican] 1)).
    reflexivity.
  - apply (proj1 (proj2 (findPublication_featured_first
      (Detail.mkFeatured [] [withText 1 (Some "Afro-American") None None])
      [afroAmerican] 1))); reflexivity.
Defined.

(** C3 as stated fails: the base record of id 1 has a city and a founding
    year, the featured record of id 1 has neither, and the record the
    lookup returns has neither, while the fill-gaps merge has both. *)
Lemma findPublication_merge_counterexample :
  exists r,
    Detail.findPublication
      (Detail.mkFeatured [withText 1 (Some "Afro-American") None None] [])
      [afroAmerican] 1
    = Some r
    /\ Pub.city (Detail.pub r) = None
    /\ Pub.city afroAmerican = Some "Jersey City"
    /\ Pub.city
         (mergeFillGaps (withText 1 (Some "Afro-American") None None)
            afroAmerican)
       = Some "Jersey City".
Proof. eexists. repeat split; reflexivity. Qed.

(** ** The query-string codec *)

Lemma lacks_app (sep : ascii) (a b : string) :
  lacks sep (a ++ b)%string = lacks sep a && lacks sep b.
Proof.
  induction a as [|c a IH]; simpl; [reflexivity|].
  now rewrite IH, andb_assoc.
Qed.

Lemma encodeByte_lacks (c : ascii) :
  lacks "&" (URLSearchParams.encodeByte c) = true
  /\ lacks "=" (URLSearchParams.encodeByte c) = true.
Proof. destruct c as [[] [] [] [] [] [] [] []]; split; reflexivity. Qed.

Lemma encode_lacks (s : string) :
  lacks "&" (URLSearchParams.encode s) = true
  /\ lacks "=" (URLSearchParams.encode s) = true.
Proof.
  induction s as [|c s [IH1 IH2]]; simpl; [now split|].
  rewrite !lacks_app, IH1, IH2.
  destruct (encodeByte_lacks c) as [-> ->]. now split.
Qed.

Lemma splitOn_whole (sep : ascii) (a : string) :
  lacks sep a = true -> URLSearchParams.splitOn sep a = [a].
Proof.
  induction a as [|c a IH]; simpl; [reflexivity|].
  rewrite andb_true_iff, negb_true_iff. intros [Hc Ha].
  now rewrite Hc, IH.
Qed.

Lemma splitOn_first (sep : ascii) (a r : string) :
  lacks sep a = true ->
  URLSearchParams.splitOn sep (a ++ String sep r)%string
  = a :: URLSearchParams.splitOn sep r.
Proof.
  induction a as [|c a IH]; simpl.
  - intros _. now rewrite Ascii.eqb_refl.
  - rewrite andb_true_iff, negb_true_iff. intros [Hc Ha].
    now rewrite Hc, IH.
Qed.

Lemma splitPair_first (a b : string) :
  lacks "=" a = true ->
  URLSearchParams.splitPair (a ++ String "=" b)%string = (a, b).
Proof.
  induction a as [|c a IH]; simpl; [reflexivity|].
  rewrite andb_true_iff, negb_true_iff. intros [Hc Ha].
  now rewrite Hc, IH.
Qed.

Lemma replacePlus_app (a b : string) :
  URLSearchParams.replacePlus (a ++ b)%string
  = (URLSearchParams.replacePlus a ++ URLSearchParams.replacePlus b)%string.
Proof. induction a as [|c a IH]; simpl; [reflexivity | now rewrite IH]. Qed.

Lemma percentDecode_byte (c : ascii) (rest : string) :
  URLSearchParams.percentDecode
    (URLSearchParams.replacePlus (URLSearchParams.encodeByte c) ++ rest)%string
  = String c (URLSearchParams.percentDecode rest).
Proof. destruct c as [[] [] [] [] [] [] [] []]; reflexivity. Qed.

Lemma percentDecode_encode (s : string) :
  URLSearchParams.percentDecode
    (URLSearchParams.replacePlus (URLSearchParams.encode s)) = s.
Proof.
  induction s as [|c s IH]; simpl; [reflexivity|].
  now rewrite replacePlus_app, percentDecode_byte, IH.
Qed.

Lemma parsePair_encoded (n v : string) :
  URLSearchParams.parsePair
    (URLSearchParams.encode n ++ "=" ++ URLSearchParams.encode v)%string
  = [(n, v)].
Proof.
  unfold URLSearchParams.parsePair.
  change ("=" ++ URLSearchParams.encode v)%string
    with (String "=" (URLSearchParams.encode v)).
  destruct (URLSearchParams.encode n
            ++ String "=" (URLSearchParams.encode v))%string
    as [|c r] eqn:E.
  - destruct (URLSearchParams.encode n); discriminate E.
  - rewrite <- E.
    rewrite splitPair_first by apply encode_lacks.
    now rewrite !percentDecode_encode.
Qed.

Lemma pair_lacks_amp (n v : string) :
  lacks "&"
    (URLSearchParams.encode n ++ "=" ++ URLSearchParams.encode v)%string
  = true.
Proof.
  rewrite !lacks_app.
  destruct (encode_lacks n) as [-> _], (encode_lacks v) as [-> _].
  reflexivity.
Qed.

Lemma parse_serialize (l : URLSearchParams.t) :
  URLSearchParams.parse (URLSearchParams.serialize l) = l.
Proof.
  unfold URLSearchParams.parse.
  induction l as [|[n v] r IH]; [reflexivity|].
  cbn [URLSearchParams.serialize]. destruct r as [|kv r].
  - rewrite splitOn_whole by apply pair_lacks_amp.
    cbn [flat_map]. now rewrite parsePair_encoded.
  - replace ((URLSearchParams.encode n ++ "=" ++ URLSearchParams.encode v)
             ++ "&" ++ URLSearchParams.serialize (kv :: r))%string
      with ((URLSearchParams.encode n ++ "=" ++ URLSearchParams.encode v)
            ++ String "&" (URLSearchParams.serialize (kv :: r)))%string
      by reflexivity.
    rewrite splitOn_first by apply pair_lacks_amp.
    cbn [flat_map]. now rewrite parsePair_encoded, IH.
Qed.

Lemma ofString_updateURL (st : Archive.State) :
  URLSearchParams.ofString (Archive.updateURL st) = Archive.urlParams st.
Proof.
  unfold Archive.updateURL.
  destruct (URLSearchParams.serialize (Archive.urlParams st)) as [|c r] eqn:E.
  - cbn. rewrite <- (parse_serialize (Archive.urlParams st)), E. reflexivity.
  - cbn [nonEmpty]. rewrite <- E.
    change (URLSearchParams.ofString
              ("?" ++ URLSearchParams.serialize (Archive.urlParams st))%string)
      with (URLSearchParams.parse
              (URLSearchParams.serialize (Archive.urlParams st))).
    apply parse_serialize.
Qed.

(** C6. Reading back, at page load, the query string that [updateURL]
    wrote for a state restores the search text, the three filters, the sort
    key and the view mode of that state: the fields that differ from their
    defaults are carried by the query string, and the omitted ones are
    found at their defaults in the initial state.  The default state
    encodes to the empty query string, which decodes to the defaults. *)
Theorem url_state_round_trip (s : Archive.State) :
  Archive.filters
    (Archive.loadStateFromURL (Archive.updateURL s) Archive.initialState)
  = Archive.filters s
  /\ Archive.sort
       (Archive.loadStateFromURL (Archive.updateURL s) Archive.initialState)
     = Archive.sort s
  /\ Archive.view
       (Archive.loadStateFromURL (Archive.updateURL s) Archive.initialState)
     = Archive.view s
  /\ Archive.updateURL Archive.initialState = EmptyString
  /\ Archive.loadStateFromURL EmptyString Archive.initialState
     = Archive.initialState.
Proof.
  unfold Archive.loadStateFromURL. rewrite ofString_updateURL.
  destruct s as [pubs filt [q c d stt] srt vw pg pp].
  unfold Archive.urlParams.
  cbn [Archive.filters Archive.search Archive.city Archive.decade
       Archive.status Archive.sort Archive.view].
  destruct q as [|q0 q'];
    destruct (String.eqb_spec c "all");
    destruct (String.eqb_spec d "all");
    destruct (String.eqb_spec stt "all");
    destruct (String.eqb_spec srt "name");
    destruct (String.eqb_spec vw "grid");
    subst; cbn; repeat split; reflexivity.
Qed.


(** * Further properties of the controllers *)

(** ** Filters in sequence *)

Lemma filter_twice {A} (f g : A -> bool) (l : list A) :
  filter f (filter g l) = filter (fun x => g x && f x) l.
Proof.
  induction l as [|x l IH]; simpl; [reflexivity|].
  destruct (g x); simpl; [|exact IH].
  destruct (f x); now rewrite IH.
Qed.

Lemma filter_unless {A} (off : bool) (f : A -> bool) (l : list A) :
  (if negb off then filter f l else l) = filter (fun x => off || f x) l.
Proof.
  destruct off; simpl; [|reflexivity].
  induction l as [|x l IH]; simpl; [reflexivity | now rewrite <- IH].
Qed.

Lemma filterM_throws {A} (f : A -> Completion bool) (l : list A) :
  filterM f l = Throw TypeError
  <-> exists x, In x l /\ f x = Throw TypeError.
Proof.
  induction l as [|x l IH]; simpl.
  - split; [discriminate | intros [x [[] _]]].
  - destruct (f x) as [b|[]] eqn:E; simpl.
    + destruct (filterM f l) as [r|[]] eqn:El; simpl.
      * split; [discriminate|].
        intros [y [[<-|Hy] Hf]]; [congruence|].
        assert (Hex : exists z, In z l /\ f z = Throw TypeError)
          by (exists y; auto).
        apply IH in Hex. discriminate Hex.
      * split; [|reflexivity].
        intros _. destruct (proj1 IH eq_refl) as [y [Hy Hf]].
        exists y. auto.
    + split; [|reflexivity]. intros _. exists x. auto.
Qed.

Lemma archive_searchMatches_throws (q : string) (p : Pub.t) :
  Archive.searchMatches q p = Throw TypeError <-> archiveTrips q p.
Proof.
  unfold Archive.searchMatches, archiveTrips.
  destruct (Archive.fieldIncludes (Pub.name p) q),
           (Archive.fieldIncludes (Pub.city p) q),
           (Archive.fieldIncludes (Pub.missionStatement p) q),
           (Archive.fieldIncludes (Pub.historicalNotes p) q),
           (Archive.fieldIncludes (Pub.primaryFocus p) q);
    try (split; [discriminate | intros H; decompose [and] H; discriminate]).
  destruct (Pub.publishers p) as [[s|l]|];
    cbn [Archive.publishersIncludes JS.bind].
  - split.
    + destruct (Archive.fieldIncludes (Some s) q); intros H; discriminate H.
    + intros [[l E] _]. discriminate E.
  - split; [|reflexivity]. intros _. repeat split. now exists l.
  - split.
    + intros H; discriminate H.
    + intros [[l E] _]. discriminate E.
Qed.

Lemma app_searchMatches_throws (q : string) (p : Pub.t) :
  App.searchMatches q p = Throw TypeError <-> appTrips q p.
Proof.
  unfold App.searchMatches, appTrips.
  destruct (App.fieldIncludes (Pub.name p) q),
           (App.fieldIncludes (Pub.city p) q),
           (App.fieldIncludes (Pub.primaryFocus p) q),
           (App.fieldIncludes (Pub.missionStatement p) q);
    try (split; [discriminate | intros H; decompose [and] H; discriminate]).
  destruct (Pub.publishers p) as [[s|l]|]; simpl.
  - split; [discriminate | intros [[l E] _]; discriminate E].
  - split; [|reflexivity]. intros _. repeat split. now exists l.
  - split; [discriminate | intros [[l E] _]; discriminate E].
Qed.

Lemma app_searchMatches_text (q : string) (p : Pub.t) :
  (forall l, Pub.publishers p <> Some (PublisherList l)) ->
  App.searchMatches q p = Normal (appHit q p).
Proof.
  intros Hp. unfold App.searchMatches, appHit, appSearchFields.
  rewrite !existsb_app.
  assert (Hf : forall f, App.fieldIncludes f q
    = existsb (fun s => includes (toLowerCase s) q) (present f)).
  { intros [s|]; simpl; [now rewrite orb_false_r | reflexivity]. }
  rewrite !Hf.
  set (g := fun s => includes (toLowerCase s) q).
  destruct (existsb g (present (Pub.name p))),
           (existsb g (present (Pub.city p))),
           (existsb g (present (Pub.primaryFocus p))),
           (existsb g (present (Pub.missionStatement p)));
    simpl; try reflexivity.
  destruct (Pub.publishers p) as [[s|l]|]; simpl.
  - unfold g. now rewrite orb_false_r.
  - now destruct (Hp l).
  - reflexivity.
Qed.

Lemma filter_either {A} (c : bool) (f g : A -> bool) (l : list A) :
  (if c then filter f l else filter g l)
  = filter (fun x => if c then f x else g x) l.
Proof. now destruct c. Qed.

Lemma archive_applyFilters_text lc (a : Archive.State) :
  publishersAreText (Archive.publications a) ->
  Archive.applyFilters lc a
  = Normal
      {| Archive.publications := Archive.publications a;
         Archive.filtered :=
           Archive.sortPublications lc a
             (filter (archiveKeeps (Archive.filters a))
                (Archive.publications a));
         Archive.filters := Archive.filters a;
         Archive.sort := Archive.sort a; Archive.view := Archive.view a;
         Archive.page := Archive.page a;
         Archive.perPage := Archive.perPage a |}.
Proof.
  intros Hp. unfold Archive.applyFilters.
  set (f := Archive.filters a). set (pubs := Archive.publications a).
  assert (Hs :
    (if nonEmpty (Archive.search f)
     then filterM (Archive.searchMatches (toLowerCase (Archive.search f)))
            pubs
     else Normal pubs)
    = Normal (filter (fun p => negb (nonEmpty (Archive.search f))
                               || specHit (toLowerCase (Archive.search f)) p)
                pubs)).
  { destruct (nonEmpty (Archive.search f)) eqn:E.
    - apply filterM_total. intros p Hin. simpl.
      apply archive_searchMatches_spec.
      + now rewrite nonEmpty_toLowerCase.
      + intros l. now apply Hp.
    - f_equal. exact (filter_unless true _ pubs). }
  rewrite Hs. cbn [JS.bind].
  rewrite filter_either, !filter_unless, !filter_twice.
  do 3 f_equal. apply filter_ext. intros p. unfold archiveKeeps.
  now rewrite !andb_assoc.
Qed.

Lemma app_applyFilters_text lc (b : App.State) :
  publishersAreText (App.publications b) ->
  App.applyFilters lc b
  = Normal
      (App.sortPublications lc
         {| App.publications := App.publications b;
            App.filteredPublications :=
              filter (appKeeps (App.filters b)) (App.publications b);
            App.filters := App.filters b; App.sortBy := App.sortBy b;
            App.currentPage := App.currentPage b;
            App.perPage := App.perPage b |}).
Proof.
  intros Hp. unfold App.applyFilters.
  set (f := App.filters b). set (pubs := App.publications b).
  assert (Hs :
    (if nonEmpty (App.search f)
     then filterM (App.searchMatches (App.search f)) pubs
     else Normal pubs)
    = Normal (filter (fun p => negb (nonEmpty (App.search f))
                               || appHit (App.search f) p) pubs)).
  { destruct (nonEmpty (App.search f)) eqn:E.
    - apply filterM_total. intros p Hin. simpl.
      apply app_searchMatches_text. intros l. now apply Hp.
    - f_equal. exact (filter_unless true _ pubs). }
  rewrite Hs. cbn [JS.bind].
  rewrite !filter_unless, !filter_twice.
  do 3 f_equal. apply filter_ext. intros p. unfold appKeeps.
  now rewrite !andb_assoc.
Qed.

Lemma app_sort_perm_of lc pubs shown f key pg pp :
  Permutation
    (App.filteredPublications
       (App.sortPublications lc (App.mkState pubs shown f key pg pp)))
    shown.
Proof. exact (app_sort_perm lc (App.mkState pubs shown f key pg pp)). Qed.

Section FilterPipeline.
Variable localeCompare : string -> string -> Z.

(** X1. On the archive page, when no record carries its publishers as an
    array, [applyFilters] returns, and the records it leaves are exactly
    those of the loaded list that pass every filter not at its sentinel,
    each as often as it is loaded; the loaded list, the filter state and
    the page are left as they were. *)
Theorem archive_filters_conjoin (a : Archive.State) :
  publishersAreText (Archive.publications a) ->
  exists a',
    Archive.applyFilters localeCompare a = Normal a'
    /\ Permutation (Archive.filtered a')
         (filter (archiveKeeps (Archive.filters a)) (Archive.publications a))
    /\ (forall p, In p (Archive.filtered a')
          <-> In p (Archive.publications a)
              /\ archiveKeeps (Archive.filters a) p = true)
    /\ Archive.publications a' = Archive.publications a
    /\ Archive.filters a' = Archive.filters a
    /\ Archive.page a' = Archive.page a.
Proof.
  intros Hp. eexists. split; [now apply archive_applyFilters_text|].
  cbn. split; [apply archive_sort_perm|]. split; [|now repeat split].
  intros p. rewrite <- filter_In. split; apply Permutation_in.
  - apply archive_sort_perm.
  - symmetry. apply archive_sort_perm.
Qed.

(** X2. On the home page, when no record carries its publishers as an
    array, [applyFilters] returns, and the records it leaves are exactly
    those of the loaded list that pass the search, city, decade, status
    and format filters not at their sentinels. *)
Theorem app_filters_conjoin (b : App.State) :
  publishersAreText (App.publications b) ->
  exists b',
    App.applyFilters localeCompare b = Normal b'
    /\ Permutation (App.filteredPublications b')
         (filter (appKeeps (App.filters b)) (App.publications b))
    /\ (forall p, In p (App.filteredPublications b')
          <-> In p (App.publications b)
              /\ appKeeps (App.filters b) p = true)
    /\ App.publications b' = App.publications b
    /\ App.filters b' = App.filters b
    /\ App.currentPage b' = App.currentPage b.
Proof.
  intros Hp. eexists. split; [now apply app_applyFilters_text|].
  pose proof (app_sort_perm_of localeCompare (App.publications b)
    (filter (appKeeps (App.filters b)) (App.publications b))
    (App.filters b) (App.sortBy b) (App.currentPage b) (App.perPage b))
    as Hperm.
  split; [exact Hperm|]. split; [|now repeat split].
  intros p. rewrite <- filter_In. split; apply Permutation_in.
  - exact Hperm.
  - symmetry. exact Hperm.
Qed.

(** X3. [applyFilters] throws exactly when the stored query is not empty
    and some loaded record has array publishers while none of the fields
    tested before the publishers contains the query; in every other case
    it returns.  The archive page lower-cases the query first and tests
    name, city, missionStatement, historicalNotes and primaryFocus; the
    home page tests name, city, primaryFocus and missionStatement. *)
Theorem applyFilters_throws_iff (a : Archive.State) (b : App.State) :
  (Archive.applyFilters localeCompare a = Throw TypeError
   <-> nonEmpty (Archive.search (Archive.filters a)) = true
       /\ exists p, In p (Archive.publications a)
            /\ archiveTrips
                 (toLowerCase (Archive.search (Archive.filters a))) p)
  /\ (App.applyFilters localeCompare b = Throw TypeError
      <-> nonEmpty (App.search (App.filters b)) = true
          /\ exists p, In p (App.publications b)
               /\ appTrips (App.search (App.filters b)) p)
  /\ ((exists a', Archive.applyFilters localeCompare a = Normal a')
      \/ Archive.applyFilters localeCompare a = Throw TypeError)
  /\ ((exists b', App.applyFilters localeCompare b = Normal b')
      \/ App.applyFilters localeCompare b = Throw TypeError).
Proof.
  split; [|split; [|split]].
  - unfold Archive.applyFilters.
    destruct (nonEmpty (Archive.search (Archive.filters a))).
    + destruct (filterM _ _) as [r|[]] eqn:E; cbn [JS.bind].
      * split; [discriminate|]. intros [_ [p [Hp Ht]]].
        apply archive_searchMatches_throws in Ht.
        assert (Hr : filterM
          (Archive.searchMatches
             (toLowerCase (Archive.search (Archive.filters a))))
          (Archive.publications a) = Throw TypeError)
          by (apply filterM_throws; eauto).
        congruence.
      * split; [|reflexivity]. intros _. split; [reflexivity|].
        apply filterM_throws in E. destruct E as [p [Hp Ht]].
        exists p. split; [exact Hp|].
        now apply archive_searchMatches_throws.
    + cbn [JS.bind]. split; [discriminate | intros [H _]; discriminate H].
  - unfold App.applyFilters.
    destruct (nonEmpty (App.search (App.filters b))).
    + destruct (filterM _ _) as [r|[]] eqn:E; cbn [JS.bind].
      * split; [discriminate|]. intros [_ [p [Hp Ht]]].
        apply app_searchMatches_throws in Ht.
        assert (Hr : filterM
          (App.searchMatches (App.search (App.filters b)))
          (App.publications b) = Throw TypeError)
          by (apply filterM_throws; eauto).
        congruence.
      * split; [|reflexivity]. intros _. split; [reflexivity|].
        apply filterM_throws in E. destruct E as [p [Hp Ht]].
        exists p. split; [exact Hp|].
        now apply app_searchMatches_throws.
    + cbn [JS.bind]. split; [discriminate | intros [H _]; discriminate H].
  - destruct (Archive.applyFilters localeCompare a) as [a'|[]];
      [left; now exists a' | now right].
  - destruct (App.applyFilters localeCompare b) as [b'|[]];
      [left; now exists b' | now right].
Qed.

End FilterPipeline.

Lemma archive_filters_conjoin_witness :
  exists a',
    Archive.applyFilters codeUnitCompare
      (archiveState
         [afroAmerican; withYears 2 (Some 1900%Z) (Some 1950%Z)]
         (Archive.mkFilters "afro" "Jersey City" "all" "active") "name" 1)
    = Normal a'
    /\ Permutation (Archive.filtered a') [afroAmerican].
Proof.
  destruct (archive_filters_conjoin codeUnitCompare
    (archiveState
       [afroAmerican; withYears 2 (Some 1900%Z) (Some 1950%Z)]
       (Archive.mkFilters "afro" "Jersey City" "all" "active") "name" 1))
    as [a' [Ha [Hperm _]]].
  - intros p l [<-|[<-|[]]]; discriminate.
  - exists a'. split; [exact Ha | exact Hperm].
Defined.

Lemma app_filters_conjoin_witness :
  exists b',
    App.applyFilters codeUnitCompare
      (appState
         [afroAmerican; withYears 2 (Some 1900%Z) (Some 1950%Z)]
         (App.mkFilters "afro" "all" "all" "all" "all") "name" 1)
    = Normal b'
    /\ Permutation (App.filteredPublications b') [afroAmerican].
Proof.
  destruct (app_filters_conjoin codeUnitCompare
    (appState
       [afroAmerican; withYears 2 (Some 1900%Z) (Some 1950%Z)]
       (App.mkFilters "afro" "all" "all" "all" "all") "name" 1))
    as [b' [Hb [Hperm _]]].
  - intros p l [<-|[<-|[]]]; discriminate.
  - exists b'. split; [exact Hb | exact Hperm].
Defined.

(** ** Chips, the URL and the counters *)

Lemma existsb_eqb_In (v : string) (seen : list string) :
  existsb (String.eqb v) seen = true <-> In v seen.
Proof.
  rewrite existsb_exists. split.
  - intros [x [Hx E]]. apply String.eqb_eq in E. now subst.
  - intros H. exists v. split; [exact H | apply String.eqb_refl].
Qed.

Lemma uniqueFrom_In (seen values : list string) (x : string) :
  In x (Archive.uniqueFrom seen values) <-> In x values /\ ~ In x seen.
Proof.
  revert seen. induction values as [|v r IH]; intros seen; simpl.
  - tauto.
  - destruct (existsb (String.eqb v) seen) eqn:E.
    + apply existsb_eqb_In in E. rewrite IH. split.
      * intros [H1 H2]. auto.
      * intros [[->|H1] H2]; [contradiction | auto].
    + assert (Hv : ~ In v seen).
      { intros H. apply existsb_eqb_In in H. congruence. }
      simpl. rewrite IH. simpl. split.
      * intros [<-|[H1 H2]]; auto.
      * intros [[<-|H1] H2]; [now left|].
        destruct (String.eqb_spec v x) as [->|Hne]; [now left|].
        right. split; [exact H1|]. intros [H|H]; auto.
Qed.

Lemma uniqueFrom_NoDup (seen values : list string) :
  NoDup (Archive.uniqueFrom seen values).
Proof.
  revert seen. induction values as [|v r IH]; intros seen; simpl.
  - constructor.
  - destruct (existsb (String.eqb v) seen); [apply IH|].
    constructor; [|apply IH].
    rewrite uniqueFrom_In. intros [_ H]. apply H. now left.
Qed.

Lemma truthyCities_In (pubs : list Pub.t) (c : string) :
  In c (Archive.truthyCities pubs)
  <-> nonEmpty c = true /\ exists p, In p pubs /\ Pub.city p = Some c.
Proof.
  unfold Archive.truthyCities. rewrite in_flat_map. split.
  - intros [p [Hp Hc]]. destruct (Pub.city p) as [[|x r]|] eqn:E;
      simpl in Hc; try contradiction.
    destruct Hc as [<-|[]]. split; [reflexivity|]. now exists p.
  - intros [Hn [p [Hp E]]]. exists p. split; [exact Hp|].
    rewrite E. destruct c; [discriminate Hn | now left].
Qed.

Lemma filter_split_length {A} (f g : A -> bool) (l : list A) :
  (forall x, g x = negb (f x)) ->
  List.length (filter f l) + List.length (filter g l) = List.length l.
Proof.
  intros H. induction l as [|x l IH]; simpl; [reflexivity|].
  rewrite (H x). destruct (f x); simpl; lia.
Qed.

Section ChipsAndCounters.
Variable localeCompare : string -> string -> Z.

(** X5. On the archive page, when no record carries its publishers as an
    array, [clearFilter(type)] returns, removes exactly the chip of that
    type and keeps the other chips with their labels, restarts pagination
    at page 1 and keeps the loaded list and the sort key; for a type that
    names no filter the chips stay as they are. *)
Theorem clearFilter_drops_chip (a : Archive.State) (ty : string) :
  publishersAreText (Archive.publications a) ->
  exists a',
    Archive.clearFilter localeCompare ty a = Normal a'
    /\ Archive.activeFilterChips a'
       = filter (fun c => negb (String.eqb (Archive.type c) ty))
           (Archive.activeFilterChips a)
    /\ Archive.page a' = 1
    /\ Archive.publications a' = Archive.publications a
    /\ Archive.sort a' = Archive.sort a.
Proof.
  intros Hp. unfold Archive.clearFilter.
  rewrite archive_applyFilters_text by exact Hp.
  eexists. split; [reflexivity|].
  split; [|now repeat split].
  unfold Archive.activeFilterChips.
  destruct a as [pubs filt [s c d stt] srt vw pg pp].
  cbn [Archive.filters Archive.search Archive.city Archive.decade
       Archive.status].
  destruct (String.eqb_spec ty "search") as [->|N1];
    [|destruct (String.eqb_spec ty "city") as [->|N2];
      [|destruct (String.eqb_spec ty "decade") as [->|N3];
        [|destruct (String.eqb_spec ty "status") as [->|N4]]]];
    cbn [Archive.filters Archive.search Archive.city Archive.decade
         Archive.status];
    destruct (nonEmpty s), (String.eqb c "all"), (String.eqb d "all"),
             (String.eqb stt "all");
    cbn [app filter Archive.type negb];
    try (repeat match goal with
         | |- context [String.eqb ?k ty] =>
             destruct (String.eqb_spec k ty); [congruence|]
         end);
    reflexivity.
Qed.

(** X6. The query string [updateURL] writes carries, in this order, one
    parameter for each filter chip shown, then [sort] unless the key is
    "name", then [view] unless the mode is "grid"; each parameter holds
    the state's value, and a field at its default has no parameter. *)
Theorem url_lists_the_chips (a : Archive.State) :
  let params := URLSearchParams.ofString (Archive.updateURL a) in
  map fst params
  = map Archive.type (Archive.activeFilterChips a)
    ++ (if String.eqb (Archive.sort a) "name" then [] else ["sort"])
    ++ (if String.eqb (Archive.view a) "grid" then [] else ["view"])
  /\ URLSearchParams.get params "search"
     = (if nonEmpty (Archive.search (Archive.filters a))
        then Some (Archive.search (Archive.filters a)) else None)
  /\ URLSearchParams.get params "city"
     = (if String.eqb (Archive.city (Archive.filters a)) "all"
        then None else Some (Archive.city (Archive.filters a)))
  /\ URLSearchParams.get params "decade"
     = (if String.eqb (Archive.decade (Archive.filters a)) "all"
        then None else Some (Archive.decade (Archive.filters a)))
  /\ URLSearchParams.get params "status"
     = (if String.eqb (Archive.status (Archive.filters a)) "all"
        then None else Some (Archive.status (Archive.filters a)))
  /\ URLSearchParams.get params "sort"
     = (if String.eqb (Archive.sort a) "name"
        then None else Some (Archive.sort a))
  /\ URLSearchParams.get params "view"
     = (if String.eqb (Archive.view a) "grid"
        then None else Some (Archive.view a)).
Proof.
  cbv zeta. rewrite ofString_updateURL.
  unfold Archive.urlParams, Archive.activeFilterChips.
  destruct a as [pubs filt [s c d stt] srt vw pg pp].
  cbn [Archive.filters Archive.search Archive.city Archive.decade
       Archive.status Archive.sort Archive.view].
  destruct (nonEmpty s), (String.eqb c "all"), (String.eqb d "all"),
           (String.eqb stt "all"), (String.eqb srt "name"),
           (String.eqb vw "grid");
    cbn; repeat split; reflexivity.
Qed.

(** X7. The hero counters agree with the status filter: the active and
    archived counts add up to the total, and with the other filters at
    their defaults the "active" button leaves as many records as the
    active counter says and the "archived" button as many as the archived
    counter says. *)
Theorem stats_match_status_filter (a : Archive.State) :
  Archive.search (Archive.filters a) = EmptyString ->
  Archive.city (Archive.filters a) = "all" ->
  Archive.decade (Archive.filters a) = "all" ->
  let s := Archive.loadDataStats (Archive.publications a) in
  Archive.activeCount s + Archive.archivedCount s = Archive.heroTotal s
  /\ (exists a1,
        Archive.onStatusClick localeCompare "active" a = Normal a1
        /\ List.length (Archive.filtered a1) = Archive.activeCount s)
  /\ (exists a2,
        Archive.onStatusClick localeCompare "archived" a = Normal a2
        /\ List.length (Archive.filtered a2) = Archive.archivedCount s).
Proof.
  destruct a as [pubs filt [q c d stt] srt vw pg pp]. simpl.
  intros -> -> ->.
  pose proof (filter_split_length derivedActive derivedArchived pubs
                derivedArchived_complement) as Hsplit.
  split; [lia|]. split.
  - unfold Archive.onStatusClick, Archive.applyFilters. cbn.
    eexists. split; [reflexivity|]. cbn.
    apply Permutation_length, archive_sort_perm.
  - unfold Archive.onStatusClick, Archive.applyFilters. cbn.
    eexists. split; [reflexivity|]. cbn.
    rewrite (Permutation_length (archive_sort_perm _ _ _)). lia.
Qed.

(** X8. The city select offers each non-empty city of the loaded records
    exactly once and nothing else, as many options as the city counter
    says; and with the other filters at their defaults, choosing any
    offered city leaves at least one record. *)
Theorem cityOptions_cover_cities (a : Archive.State) :
  Archive.search (Archive.filters a) = EmptyString ->
  Archive.decade (Archive.filters a) = "all" ->
  Archive.status (Archive.filters a) = "all" ->
  NoDup (Archive.cityOptions a)
  /\ (forall c, In c (Archive.cityOptions a)
        <-> nonEmpty c = true
            /\ exists p, In p (Archive.publications a)
                         /\ Pub.city p = Some c)
  /\ List.length (Archive.cityOptions a)
     = Archive.cityCount (Archive.loadDataStats (Archive.publications a))
  /\ (forall c, In c (Archive.cityOptions a) ->
        exists a',
          Archive.onCityChange localeCompare c a = Normal a'
          /\ Archive.filtered a' <> []).
Proof.
  intros Hs Hd Hst.
  assert (Hperm : Permutation (Archive.cityOptions a)
    (Archive.uniqueFrom [] (Archive.truthyCities (Archive.publications a))))
    by apply sort_perm.
  assert (Hin : forall c, In c (Archive.cityOptions a)
    <-> nonEmpty c = true
        /\ exists p, In p (Archive.publications a) /\ Pub.city p = Some c).
  { intros c. rewrite <- truthyCities_In. split.
    - intros H. apply (Permutation_in _ Hperm) in H.
      now apply uniqueFrom_In in H.
    - intros H. apply (Permutation_in _ (Permutation_sym Hperm)).
      apply uniqueFrom_In. split; [exact H | intros []]. }
  split; [|split; [exact Hin|split]].
  - eapply Permutation_NoDup; [symmetry; exact Hperm|].
    apply uniqueFrom_NoDup.
  - apply (Permutation_length Hperm).
  - intros c Hc. apply Hin in Hc. destruct Hc as [_ [p [Hp Ec]]].
    destruct a as [pubs filt [q ct d stt] srt vw pg pp].
    simpl in Hs, Hd, Hst, Hp. subst q d stt.
    unfold Archive.onCityChange, Archive.applyFilters. cbn.
    eexists. split; [reflexivity|]. cbn.
    intros Hnil.
    assert (Hempty : forall l,
      Archive.sortPublications localeCompare
        (Archive.mkState pubs filt (Archive.mkFilters EmptyString c "all" "all")
           srt vw 1 pp) l = [] -> l = []).
    { intros l E. apply Permutation_nil.
      rewrite <- E. apply archive_sort_perm. }
    apply Hempty in Hnil.
    destruct (String.eqb c "all"); simpl in Hnil.
    + subst pubs. contradiction.
    + assert (Hf : In p (filter (fun pub => strictEqStr (Pub.city pub) c)
                           pubs)).
      { apply filter_In. split; [exact Hp|].
        unfold strictEqStr. rewrite Ec. apply String.eqb_refl. }
      rewrite Hnil in Hf. contradiction.
Qed.
End ChipsAndCounters.

Lemma clearFilter_drops_chip_witness :
  exists a',
    Archive.clearFilter codeUnitCompare "city"
      (archiveState [afroAmerican]
         (Archive.mkFilters "afro" "Newark" "all" "all") "name" 3)
    = Normal a'
    /\ map Archive.type (Archive.activeFilterChips a') = ["search"]
    /\ Archive.page a' = 1.
Proof.
  destruct (clearFilter_drops_chip codeUnitCompare
    (archiveState [afroAmerican]
       (Archive.mkFilters "afro" "Newark" "all" "all") "name" 3) "city")
    as [a' [Ha [Hc [Hp _]]]].
  - intros p l [<-|[]]; discriminate.
  - exists a'. split; [exact Ha|]. split; [|exact Hp].
    rewrite Hc. reflexivity.
Defined.

Lemma stats_match_status_filter_witness :
  Archive.activeCount
    (Archive.loadDataStats
       [afroAmerican; withYears 2 (Some 1900%Z) (Some 1950%Z)])
  + Archive.archivedCount
      (Archive.loadDataStats
         [afroAmerican; withYears 2 (Some 1900%Z) (Some 1950%Z)])
  = 2.
Proof.
  exact (proj1 (stats_match_status_filter codeUnitCompare
    (archiveState [afroAmerican; withYears 2 (Some 1900%Z) (Some 1950%Z)]
       (Archive.filters Archive.initialState) "name" 1)
    eq_refl eq_refl eq_refl)).
Defined.

Lemma cityOptions_cover_cities_witness :
  NoDup (Archive.cityOptions
           (archiveState [afroAmerican; afroAmerican; blank 3]
              (Archive.filters Archive.initialState) "name" 1))
  /\ List.length
       (Archive.cityOptions
          (archiveState [afroAmerican; afroAmerican; blank 3]
             (Archive.filters Archive.initialState) "name" 1)) = 1.
Proof.
  destruct (cityOptions_cover_cities codeUnitCompare
    (archiveState [afroAmerican; afroAmerican; blank 3]
       (Archive.filters Archive.initialState) "name" 1)
    eq_refl eq_refl eq_refl) as [Hnd [_ [Hlen _]]].
  split; [exact Hnd|]. rewrite Hlen. reflexivity.
Defined.

(** ** Pagination and sorting, continued *)

Lemma archive_iter_loadMore (k : nat) (a : Archive.State) :
  Archive.filtered (Nat.iter k Archive.loadMore a) = Archive.filtered a
  /\ Archive.perPage (Nat.iter k Archive.loadMore a) = Archive.perPage a
  /\ Archive.page (Nat.iter k Archive.loadMore a) = Archive.page a + k.
Proof.
  induction k as [|k [IH1 [IH2 IH3]]]; simpl.
  - repeat split. lia.
  - rewrite IH1, IH2, IH3. repeat split. lia.
Qed.

Lemma app_iter_loadMore (k : nat) (b : App.State) :
  App.filteredPublications (Nat.iter k App.loadMore b)
  = App.filteredPublications b
  /\ App.perPage (Nat.iter k App.loadMore b) = App.perPage b
  /\ App.currentPage (Nat.iter k App.loadMore b) = App.currentPage b + k.
Proof.
  induction k as [|k [IH1 [IH2 IH3]]]; simpl.
  - repeat split. lia.
  - rewrite IH1, IH2, IH3. repeat split. lia.
Qed.

(** X9. Pressing "load more" [k] times shows the whole filtered list and
    hides the control as soon as [(page + k) * perPage] reaches the length
    of the list, in both controllers; with a page size of at least 1, as
    many presses as the list is long always suffice. *)
Theorem loadMore_reaches_the_end (a : Archive.State) (b : App.State)
    (k : nat) :
  (List.length (Archive.filtered a)
     <= (Archive.page a + k) * Archive.perPage a ->
   toShow (Archive.renderResults (Nat.iter k Archive.loadMore a))
     = Archive.filtered a
   /\ loadMoreVisible (Archive.renderResults (Nat.iter k Archive.loadMore a))
      = false)
  /\ (List.length (App.filteredPublications b)
        <= (App.currentPage b + k) * App.perPage b ->
      toShow (App.renderPublications (Nat.iter k App.loadMore b))
        = App.filteredPublications b
      /\ loadMoreVisible (App.renderPublications (Nat.iter k App.loadMore b))
         = false)
  /\ (1 <= Archive.perPage a ->
      List.length (Archive.filtered a)
        <= (Archive.page a + List.length (Archive.filtered a))
           * Archive.perPage a)
  /\ (1 <= App.perPage b ->
      List.length (App.filteredPublications b)
        <= (App.currentPage b + List.length (App.filteredPublications b))
           * App.perPage b).
Proof.
  split; [|split; [|split]].
  - intros H. destruct (archive_iter_loadMore k a) as [E1 [E2 E3]].
    unfold Archive.renderResults. rewrite E1, E2, E3. unfold slice0.
    destruct (List.length (Archive.filtered a) =? 0)%nat; simpl.
    + split; [now apply firstn_all2 | reflexivity].
    + split; [now apply firstn_all2|].
      rewrite firstn_all2 by exact H. apply Nat.ltb_irrefl.
  - intros H. destruct (app_iter_loadMore k b) as [E1 [E2 E3]].
    unfold App.renderPublications. rewrite E1, E2, E3. unfold slice0.
    destruct (List.length (firstn _ _) =? 0)%nat; simpl.
    + split; [now apply firstn_all2 | reflexivity].
    + split; [now apply firstn_all2|]. apply Nat.ltb_ge. exact H.
  - intros H. nia.
  - intros H. nia.
Qed.

Lemma loadMore_reaches_the_end_witness :
  toShow (Archive.renderResults
            (Nat.iter 1 Archive.loadMore
               {| Archive.publications := threeRecords;
                  Archive.filtered := threeRecords;
                  Archive.filters := Archive.filters Archive.initialState;
                  Archive.sort := "name"; Archive.view := "grid";
                  Archive.page := 1; Archive.perPage := 2 |}))
  = threeRecords.
Proof.
  refine (proj1 (proj1 (loadMore_reaches_the_end
    {| Archive.publications := threeRecords;
       Archive.filtered := threeRecords;
       Archive.filters := Archive.filters Archive.initialState;
       Archive.sort := "name"; Archive.view := "grid";
       Archive.page := 1; Archive.perPage := 2 |}
    (appState [] (App.filters App.initialState) "name" 1) 1) _)).
  simpl. lia.
Defined.

(** X10. On the home page the "showing" counter that [updateResultsCount]
    writes is the number of cards the render pass shows, and it never
    exceeds the total it writes beside it. *)
Theorem showing_counter_counts_cards (b : App.State) :
  fst (App.updateResultsCount b)
  = List.length (toShow (App.renderPublications b))
  /\ fst (App.updateResultsCount b) <= snd (App.updateResultsCount b)
  /\ snd (App.updateResultsCount b)
     = List.length (App.filteredPublications b).
Proof.
  unfold App.updateResultsCount, App.renderPublications. simpl.
  split; [|split; [lia | reflexivity]].
  destruct (List.length (slice0 _ _) =? 0)%nat; simpl;
    now rewrite length_slice0.
Qed.

Lemma sort_sorted_id {A} (cmp : A -> A -> Z) (key : A -> Z) (l : list A) :
  (forall a b, (cmp a b <= 0 <-> key a <= key b)%Z) ->
  StronglySorted (fun a b => key a <= key b)%Z l ->
  JS.sort cmp l = l.
Proof.
  intros Hc. induction 1 as [|x l Hl IH Hx]; [reflexivity|].
  cbn [JS.sort fold_right]. fold (JS.sort cmp l). rewrite IH.
  destruct l as [|y l]; [reflexivity|].
  cbn [JS.insert]. apply Forall_inv in Hx. apply Hc in Hx.
  apply Z.leb_le in Hx. now rewrite Hx.
Qed.

Lemma sort_idempotent {A} (cmp : A -> A -> Z) (key : A -> Z) (l : list A) :
  (forall a b, (cmp a b <= 0 <-> key a <= key b)%Z) ->
  JS.sort cmp (JS.sort cmp l) = JS.sort cmp l.
Proof.
  intros Hc. apply (sort_sorted_id cmp key); [exact Hc|].
  now apply sort_sorted.
Qed.

Section Resort.
Variable localeCompare : string -> string -> Z.

(** X11. Sorting by year a list already sorted by that key changes
    nothing: on the archive page [sortPublications] is idempotent for
    "year-asc" and "year-desc", and on the home page choosing in the sort
    select the year key already in force leaves the state as it is. *)
Theorem year_sort_idempotent (a : Archive.State) (b : App.State)
    (lst : list Pub.t) :
  (Archive.sort a = "year-asc" \/ Archive.sort a = "year-desc" ->
   Archive.sortPublications localeCompare a
     (Archive.sortPublications localeCompare a lst)
   = Archive.sortPublications localeCompare a lst)
  /\ (App.sortBy b = "year-asc" \/ App.sortBy b = "year-desc" ->
      App.handleSort localeCompare (App.sortBy b)
        (App.sortPublications localeCompare b)
      = App.sortPublications localeCompare b).
Proof.
  assert (Hasc : forall p q : Pub.t,
    (orNum (Pub.yearFounded p) 9999 - orNum (Pub.yearFounded q) 9999 <= 0
     <-> yearAscKey p <= yearAscKey q)%Z)
    by (intros; unfold yearAscKey; lia).
  assert (Hdesc : forall p q : Pub.t,
    (orNum (Pub.yearFounded q) 0 - orNum (Pub.yearFounded p) 0 <= 0
     <-> - yearDescKey p <= - yearDescKey q)%Z)
    by (intros; unfold yearDescKey; lia).
  split.
  - intros [H|H]; unfold Archive.sortPublications; rewrite H; cbn.
    + exact (sort_idempotent _ _ lst Hasc).
    + exact (sort_idempotent _ _ lst Hdesc).
  - intros [H|H]; unfold App.handleSort, App.sortPublications;
      cbn [App.sortBy App.filteredPublications App.publications
           App.filters App.currentPage App.perPage];
      rewrite H; cbn -[JS.sort]; f_equal.
    + exact (sort_idempotent _ _ _ Hasc).
    + exact (sort_idempotent _ _ _ Hdesc).
Qed.
End Resort.

Lemma year_sort_idempotent_witness :
  Archive.sortPublications codeUnitCompare
    (archiveState [] (Archive.filters Archive.initialState) "year-asc" 1)
    (Archive.sortPublications codeUnitCompare
       (archiveState [] (Archive.filters Archive.initialState) "year-asc" 1)
       threeRecords)
  = Archive.sortPublications codeUnitCompare
      (archiveState [] (Archive.filters Archive.initialState) "year-asc" 1)
      threeRecords.
Proof.
  refine (proj1 (year_sort_idempotent codeUnitCompare
    (archiveState [] (Archive.filters Archive.initialState) "year-asc" 1)
    (appState [] (App.filters App.initialState) "year-asc" 1)
    threeRecords) _).
  left. reflexivity.
Defined.

(** ** The timeline, continued *)

Lemma list_sum_map_add {A} (g h : A -> nat) (l : list A) :
  list_sum (map (fun d => g d + h d) l)
  = list_sum (map g l) + list_sum (map h l).
Proof. induction l as [|x l IH]; simpl; [reflexivity | lia]. Qed.

Lemma one_window_per_year (p : Pub.t) :
  list_sum (map (fun d => if Timeline.foundedDuring d p then 1 else 0)
              Timeline.decades)
  = if foundedOnTimeline p then 1 else 0.
Proof.
  unfold Timeline.foundedDuring, foundedOnTimeline, Timeline.toNumber.
  destruct (Pub.yearFounded p) as [y|]; [|reflexivity].
  cbn [Timeline.decades map Timeline.start Timeline.stop list_sum
       fold_right].
  rewrite !Z.geb_leb.
  repeat match goal with
  | |- context [Z.leb ?a ?b] => destruct (Z.leb_spec a b); try lia
  end; reflexivity.
Qed.

(** X12. The founded counts of the fifteen buckets add up to the number
    of records whose founding year lies between 1880 and 2029: a record is
    counted as founded in exactly one window when its year is on the
    timeline, and in none otherwise. *)
Theorem founded_counts_add_up (pubs : list Pub.t) :
  list_sum (map Timeline.foundedCount (Timeline.calculateDecadeData pubs))
  = List.length (filter foundedOnTimeline pubs).
Proof.
  unfold Timeline.calculateDecadeData. rewrite map_map.
  cbn [Timeline.foundedCount].
  induction pubs as [|p pubs IH].
  - reflexivity.
  - cbn [filter].
    transitivity
      (list_sum (map (fun d => (if Timeline.foundedDuring d p then 1 else 0)
                               + List.length
                                   (filter (Timeline.foundedDuring d) pubs))
                   Timeline.decades)).
    + f_equal. apply map_ext. intros d.
      now destruct (Timeline.foundedDuring d p).
    + rewrite list_sum_map_add, IH, one_window_per_year.
      now destruct (foundedOnTimeline p).
Qed.

Lemma In_firstn_In {A} (n : nat) (l : list A) (x : A) :
  In x (firstn n l) -> In x l.
Proof.
  intros H. rewrite <- (firstn_skipn n l). apply in_or_app. now left.
Qed.

Lemma filter_length_bound {A} (f : A -> bool) (l : list A) :
  List.length (filter f l) <= List.length l.
Proof.
  induction l as [|x l IH]; simpl; [lia|]. destruct (f x); simpl; lia.
Qed.

(** X13. A bucket's sample records are the first five, in source order,
    of the records active during its window: there are as many as the
    smaller of 5 and the bucket's [activeCount], and each of them is a
    loaded record that overlaps the window. *)
Theorem samples_are_active_prefix (pubs : list Pub.t)
    (b : Timeline.DecadeData) :
  In b (Timeline.calculateDecadeData pubs) ->
  List.length (Timeline.publications b)
    = Nat.min 5 (Timeline.activeCount b)
  /\ (exists rest,
        filter (Timeline.activeDuring (Timeline.window b)) pubs
        = Timeline.publications b ++ rest)
  /\ (forall p, In p (Timeline.publications b) ->
        In p pubs /\ overlaps (Timeline.window b) p).
Proof.
  intros Hb.
  destruct (In_calculateDecadeData pubs b Hb) as [_ [Ha [_ Hp]]].
  rewrite Hp, Ha. split; [apply length_firstn|]. split.
  - exists (skipn 5 (filter (Timeline.activeDuring (Timeline.window b)) pubs)).
    symmetry. apply firstn_skipn.
  - intros p Hin. apply In_firstn_In in Hin. apply filter_In in Hin.
    destruct Hin as [H1 H2]. split; [exact H1|].
    now apply activeDuring_overlaps.
Qed.

Lemma samples_are_active_prefix_witness :
  Forall (fun b => List.length (Timeline.publications b)
                   = Nat.min 5 (Timeline.activeCount b))
    (Timeline.calculateDecadeData threeRecords).
Proof.
  apply Forall_forall. intros b Hb.
  exact (proj1 (samples_are_active_prefix threeRecords b Hb)).
Defined.

Lemma maxCount_bounds (data : list Timeline.DecadeData) :
  1 <= Timeline.maxCount data
  /\ forall b, In b data -> Timeline.activeCount b <= Timeline.maxCount data.
Proof.
  unfold Timeline.maxCount. induction data as [|d data [IH1 IH2]]; simpl.
  - split; [lia | intros b []].
  - split; [lia|]. intros b [<-|Hb]; [lia|].
    specialize (IH2 b Hb). lia.
Qed.

(** X14. The scale of the bar chart is at least 1 and at least every
    bucket's [activeCount], so no bar is taller than the chart and the
    division by the scale is never by zero; with no record loaded every
    count is 0 and the scale is 1. *)
Theorem chart_scale_bounds (pubs : list Pub.t) :
  1 <= Timeline.maxCount (Timeline.calculateDecadeData pubs)
  /\ (forall b, In b (Timeline.calculateDecadeData pubs) ->
        Timeline.activeCount b * 100
        <= 100 * Timeline.maxCount (Timeline.calculateDecadeData pubs)
        /\ Timeline.activeCount b <= List.length pubs
        /\ Timeline.foundedCount b <= List.length pubs)
  /\ Timeline.maxCount (Timeline.calculateDecadeData []) = 1.
Proof.
  destruct (maxCount_bounds (Timeline.calculateDecadeData pubs)) as [H1 H2].
  split; [exact H1|]. split; [|reflexivity].
  intros b Hb. specialize (H2 b Hb).
  destruct (In_calculateDecadeData pubs b Hb) as [_ [Ha [Hf _]]].
  split; [lia|]. rewrite Ha, Hf. split; apply filter_length_bound.
Qed.

Lemma chart_scale_bounds_witness :
  Forall (fun b => Timeline.activeCount b <= 3)
    (Timeline.calculateDecadeData threeRecords).
Proof.
  apply Forall_forall. intros b Hb.
  exact (proj1 (proj2 (proj1 (proj2 (chart_scale_bounds threeRecords))
                         b Hb))).
Defined.




(** ** The detail page, continued *)

Lemma find_succeeds {A} (f : A -> bool) (l : list A) (x : A) :
  In x l -> f x = true -> exists y, find f l = Some y.
Proof.
  intros Hx Hf. destruct (find f l) as [y|] eqn:E; [now exists y|].
  apply (find_none _ _ E) in Hx. congruence.
Qed.

(** X16. The lookup answers with a record of the requested id taken from
    one of the three lists, and it answers "not found" exactly when no
    record of the featured historic, featured contemporary or base list
    has that id. *)
Theorem findPublication_finds_the_id (fp : Detail.Featured)
    (allPublications : list Pub.t) (id : Z) :
  (forall r, Detail.findPublication fp allPublications id = Some r ->
     Pub.id (Detail.pub r) = id
     /\ In (Detail.pub r)
          (Detail.historic fp ++ Detail.contemporary fp ++ allPublications))
  /\ (Detail.findPublication fp allPublications id = None
      <-> forall p,
            In p (Detail.historic fp ++ Detail.contemporary fp
                  ++ allPublications) ->
            Pub.id p <> id).
Proof.
  unfold Detail.findPublication. split.
  - intros r H.
    destruct (find _ (Detail.historic fp)) as [p|] eqn:E1;
      [|destruct (find _ (Detail.contemporary fp)) as [p|] eqn:E2;
        [|destruct (find _ allPublications) as [p|] eqn:E3;
          [|discriminate H]]];
      injection H as <-; simpl;
      match goal with
      | E : find _ _ = Some _ |- _ =>
          apply find_some in E; destruct E as [Hin Hid]
      end;
      (split; [now apply Z.eqb_eq in Hid|]);
      rewrite !in_app_iff; auto.
  - split.
    + intros H p Hp Hid.
      destruct (find _ (Detail.historic fp)) eqn:E1; [discriminate H|].
      destruct (find _ (Detail.contemporary fp)) eqn:E2; [discriminate H|].
      destruct (find _ allPublications) eqn:E3; [discriminate H|].
      rewrite !in_app_iff in Hp.
      assert (Hb : Detail.byId id p = true) by now apply Z.eqb_eq.
      destruct Hp as [Hp|[Hp|Hp]];
        [apply (find_none _ _ E1) in Hp | apply (find_none _ _ E2) in Hp
        | apply (find_none _ _ E3) in Hp]; congruence.
    + intros H.
      assert (Hno : forall l, incl l
        (Detail.historic fp ++ Detail.contemporary fp ++ allPublications) ->
        find (Detail.byId id) l = None).
      { intros l Hl. destruct (find _ l) as [p|] eqn:E; [|reflexivity].
        apply find_some in E. destruct E as [Hin Hid].
        apply Z.eqb_eq in Hid. now destruct (H p (Hl p Hin)). }
      rewrite !Hno; [reflexivity | | |];
        intros p Hp; rewrite !in_app_iff; auto.
Qed.

(** X17. The related list holds at most four records of the base list,
    never one with the id of the publication shown, and each of them has
    the same non-empty city or the same non-empty decade as it. *)
Theorem related_are_neighbours (allPublications : list Pub.t)
    (current : Pub.t) :
  List.length (Detail.related allPublications current) <= 4
  /\ forall p, In p (Detail.related allPublications current) ->
       In p allPublications
       /\ Pub.id p <> Pub.id current
       /\ ((exists c, nonEmpty c = true /\ Pub.city p = Some c
                      /\ Pub.city current = Some c)
           \/ (exists d, nonEmpty d = true /\ Pub.decade p = Some d
                         /\ Pub.decade current = Some d)).
Proof.
  unfold Detail.related. split.
  - rewrite length_slice0. lia.
  - intros p Hp. apply In_firstn_In in Hp. apply filter_In in Hp.
    destruct Hp as [Hin Hf]. split; [exact Hin|].
    destruct (Z.eqb_spec (Pub.id p) (Pub.id current)) as [|Hne];
      [discriminate Hf|].
    split; [exact Hne|].
    assert (Hsame : forall x y : option string,
      truthyStr x && truthyStr y && strictEqStr x (orStr y EmptyString)
      = true ->
      exists c, nonEmpty c = true /\ x = Some c /\ y = Some c).
    { intros [[|a x]|] [[|b y]|]; cbn [truthyStr orStr strictEqStr andb];
        try discriminate.
      intros E. apply String.eqb_eq in E. injection E as E1 E2. subst.
      exists (String b y). repeat split. }
    destruct (truthyStr (Pub.city p) && truthyStr (Pub.city current)
              && strictEqStr (Pub.city p)
                   (orStr (Pub.city current) EmptyString)) eqn:Ec.
    + left. now apply Hsame.
    + right. now apply Hsame.
Qed.

Lemma related_are_neighbours_witness :
  Detail.related [afroAmerican; withYears 2 None None] afroAmerican = [].
Proof.
  destruct (Detail.related [afroAmerican; withYears 2 None None]
              afroAmerican) as [|p l] eqn:E; [reflexivity|].
  exfalso.
  destruct (proj2 (related_are_neighbours
    [afroAmerican; withYears 2 None None] afroAmerican) p)
    as [Hin [Hid Hn]].
  - rewrite E. now left.
  - destruct Hin as [<-|[<-|[]]].
    + now apply Hid.
    + destruct Hn as [[c [_ [Hc _]]]|[d [_ [Hd _]]]]; discriminate.
Defined.

(** ** Numbers in links *)

Lemma digit_char (d : Z) :
  (0 <= d < 10)%Z ->
  digitValue (ascii_of_nat (48 + Z.to_nat d)) = Some d
  /\ URLSearchParams.isPlain (ascii_of_nat (48 + Z.to_nat d)) = true.
Proof.
  intros H.
  assert (Hd : (d = 0 \/ d = 1 \/ d = 2 \/ d = 3 \/ d = 4 \/ d = 5 \/ d = 6
                \/ d = 7 \/ d = 8 \/ d = 9)%Z) by lia.
  repeat (destruct Hd as [->|Hd]; [split; reflexivity|]).
  subst d. split; reflexivity.
Qed.

Lemma digit_not_blank (c : ascii) (d : Z) :
  digitValue c = Some d ->
  isSpace c = false /\ Ascii.eqb c "-" = false /\ Ascii.eqb c "+" = false.
Proof.
  destruct c as [[] [] [] [] [] [] [] []]; intros H;
    try discriminate H; repeat split; reflexivity.
Qed.

Lemma parseDigits_digitsOnto (fuel : nat) (n : Z) (acc : string) :
  (0 <= n < 10 ^ Z.of_nat fuel)%Z ->
  parseDigits 0 (digitsOnto fuel n acc) = parseDigits n acc.
Proof.
  revert n acc. induction fuel as [|fuel IH]; intros n acc Hn.
  - simpl in *. assert (n = 0%Z) by lia. now subst.
  - cbn [digitsOnto].
    assert (Hm : (0 <= n mod 10 < 10)%Z) by (apply Z.mod_pos_bound; lia).
    destruct (digit_char _ Hm) as [Hd _].
    assert (Hstep : forall v,
      parseDigits v (String (ascii_of_nat (48 + Z.to_nat (n mod 10))) acc)
      = parseDigits (v * 10 + n mod 10) acc).
    { intros v. cbn [parseDigits]. now rewrite Hd. }
    pose proof (Z.div_mod n 10 ltac:(lia)) as Hdm.
    destruct (Z.eqb_spec (n / 10) 0) as [E|E].
    + rewrite Hstep. f_equal. lia.
    + rewrite IH.
      * rewrite Hstep. f_equal. lia.
      * rewrite Nat2Z.inj_succ, Z.pow_succ_r in Hn by lia.
        split; [apply Z.div_pos; lia|].
        apply Z.div_lt_upper_bound; lia.
Qed.

Lemma digitsOnto_head (fuel : nat) (n : Z) (acc : string) :
  startsWithDigit acc -> startsWithDigit (digitsOnto fuel n acc).
Proof.
  revert n acc. induction fuel as [|fuel IH]; intros n acc Hacc;
    [exact Hacc|].
  cbn [digitsOnto].
  assert (Hm : (0 <= n mod 10 < 10)%Z) by (apply Z.mod_pos_bound; lia).
  destruct (digit_char _ Hm) as [Hd _].
  assert (Hnew : startsWithDigit
    (String (ascii_of_nat (48 + Z.to_nat (n mod 10))) acc)).
  { eexists _, _, _. split; [reflexivity | exact Hd]. }
  destruct (n / 10 =? 0)%Z; [exact Hnew | now apply IH].
Qed.

Lemma digitsOnto_first (fuel : nat) (n : Z) :
  startsWithDigit (digitsOnto (S fuel) n EmptyString).
Proof.
  cbn [digitsOnto].
  assert (Hm : (0 <= n mod 10 < 10)%Z) by (apply Z.mod_pos_bound; lia).
  destruct (digit_char _ Hm) as [Hd _].
  assert (Hnew : startsWithDigit
    (String (ascii_of_nat (48 + Z.to_nat (n mod 10))) EmptyString)).
  { eexists _, _, _. split; [reflexivity | exact Hd]. }
  destruct (n / 10 =? 0)%Z; [exact Hnew | now apply digitsOnto_head].
Qed.

Lemma digitsOnto_plain (fuel : nat) (n : Z) (acc : string) :
  allPlain acc = true -> allPlain (digitsOnto fuel n acc) = true.
Proof.
  revert n acc. induction fuel as [|fuel IH]; intros n acc Hacc;
    [exact Hacc|].
  cbn [digitsOnto].
  assert (Hm : (0 <= n mod 10 < 10)%Z) by (apply Z.mod_pos_bound; lia).
  destruct (digit_char _ Hm) as [_ Hp].
  assert (Hnew : allPlain
    (String (ascii_of_nat (48 + Z.to_nat (n mod 10))) acc) = true).
  { cbn [allPlain]. now rewrite Hp, Hacc. }
  destruct (n / 10 =? 0)%Z; [exact Hnew | now apply IH].
Qed.

Lemma fuel_suffices (n : Z) :
  (0 <= n)%Z -> (n < 10 ^ Z.of_nat (S (Z.to_nat (Z.log2 n))))%Z.
Proof.
  intros Hn. rewrite Nat2Z.inj_succ, Z2Nat.id by apply Z.log2_nonneg.
  destruct (Z.eq_dec n 0) as [->|Hne]; [reflexivity|].
  pose proof (Z.log2_spec n ltac:(lia)) as [_ Hlt].
  eapply Z.lt_le_trans; [exact Hlt|].
  apply Z.pow_le_mono_l. pose proof (Z.log2_nonneg n). lia.
Qed.

Lemma parseDigits_of_digits (n : Z) :
  (0 <= n)%Z ->
  parseDigits 0 (digitsOnto (S (Z.to_nat (Z.log2 n))) n EmptyString) = n.
Proof.
  intros Hn. rewrite parseDigits_digitsOnto; [reflexivity|].
  split; [exact Hn | now apply fuel_suffices].
Qed.

Lemma parseInt10_digits (s : string) :
  startsWithDigit s -> parseInt10 s = Some (parseDigits 0 s).
Proof.
  intros [c [r [d [-> Hd]]]].
  destruct (digit_not_blank c d Hd) as [Hs [Hm Hp]].
  unfold parseInt10. cbn [trimStart]. rewrite Hs. cbv zeta.
  rewrite Hm, Hp. cbn [fst snd]. rewrite Hd. f_equal.
  destruct (parseDigits 0 (String c r)); reflexivity.
Qed.

Lemma parseInt10_minus (s : string) :
  startsWithDigit s ->
  parseInt10 (String "-" s) = Some (- parseDigits 0 s)%Z.
Proof.
  intros [c [r [d [-> Hd]]]]. unfold parseInt10.
  change (trimStart (String "-" (String c r)))
    with (String "-" (String c r)).
  cbv zeta iota. rewrite Ascii.eqb_refl. cbn [fst snd].
  rewrite Hd; f_equal; lia.
Qed.

Lemma parseInt10_numberToString (largeForm : Z -> string) (n : Z) :
  isSafeInteger n = true ->
  parseInt10 (numberToString largeForm n) = Some n.
Proof.
  intros Hsafe. unfold numberToString. rewrite Hsafe.
  destruct (Z.ltb_spec n 0) as [Hneg|Hpos].
  - rewrite parseInt10_minus by apply digitsOnto_first.
    rewrite parseDigits_of_digits by lia. f_equal. lia.
  - rewrite parseInt10_digits by apply digitsOnto_first.
    now rewrite parseDigits_of_digits.
Qed.

Lemma encode_plain (s : string) :
  allPlain s = true -> URLSearchParams.encode s = s.
Proof.
  induction s as [|c s IH]; [reflexivity|].
  cbn [allPlain URLSearchParams.encode]. rewrite andb_true_iff.
  intros [Hc Hs]. unfold URLSearchParams.encodeByte. rewrite Hc.
  cbn [append]. now rewrite IH.
Qed.

Lemma numberToString_plain (largeForm : Z -> string) (n : Z) :
  isSafeInteger n = true ->
  allPlain (numberToString largeForm n) = true.
Proof.
  intros Hsafe. unfold numberToString. rewrite Hsafe.
  destruct (n <? 0)%Z.
  - cbn [allPlain]. rewrite digitsOnto_plain by reflexivity. reflexivity.
  - now apply digitsOnto_plain.
Qed.

Lemma numberToString_nonEmpty (largeForm : Z -> string) (n : Z) :
  isSafeInteger n = true ->
  exists c r, numberToString largeForm n = String c r.
Proof.
  intros Hsafe. unfold numberToString. rewrite Hsafe.
  destruct (n <? 0)%Z; [eauto|].
  destruct (digitsOnto_first (Z.to_nat (Z.log2 n)) n) as [c [r [_ [E _]]]].
  eauto.
Qed.

Lemma id_parameter (s : string) :
  allPlain s = true ->
  URLSearchParams.get (URLSearchParams.ofString ("?id=" ++ s)%string) "id"
  = Some s.
Proof.
  intros Hs.
  change (URLSearchParams.ofString ("?id=" ++ s)%string)
    with (URLSearchParams.parse (String "i" (String "d" (String "=" s)))).
  replace (String "i" (String "d" (String "=" s)))
    with (URLSearchParams.serialize [("id", s)]).
  - rewrite parse_serialize. reflexivity.
  - cbn [URLSearchParams.serialize]. rewrite (encode_plain s Hs).
    reflexivity.
Qed.

Lemma getPublicationId_link (largeForm : Z -> string) (n : Z) :
  isSafeInteger n = true ->
  Detail.getPublicationId ("?id=" ++ numberToString largeForm n)%string
  = Some n.
Proof.
  intros Hsafe. unfold Detail.getPublicationId.
  rewrite id_parameter by now apply numberToString_plain.
  destruct (numberToString_nonEmpty largeForm n Hsafe) as [c [r E]].
  rewrite E, <- E. now apply parseInt10_numberToString.
Qed.

(** X18. The link a card carries leads back to its record, for every
    record whose id is a safe integer (at most 2^53 - 1 in absolute
    value, so that [${pub.id}] prints its decimal digits): the id read
    from [publication.html?id=${pub.id}] is the record's id, and for a
    loaded record with a non-zero id the detail page finds a record of
    that id, which is the record itself when its id is unique in the base
    list and absent from the featured lists.  A record whose id is 0
    cannot be opened: the page treats the id as missing. *)
Theorem detail_link_resolves (largeForm : Z -> string)
    (fp : Detail.Featured) (allPublications : list Pub.t) (p : Pub.t) :
  isSafeInteger (Pub.id p) = true ->
  Detail.getPublicationId (Archive.detailLink largeForm p)
  = Some (Pub.id p)
  /\ Detail.getPublicationId (App.detailLink largeForm p)
     = Some (Pub.id p)
  /\ (Pub.id p = 0%Z ->
      Detail.init (Archive.detailLink largeForm p) fp allPublications
      = None)
  /\ (Pub.id p <> 0%Z -> In p allPublications ->
      exists r,
        Detail.init (Archive.detailLink largeForm p) fp allPublications
        = Some r
        /\ Pub.id (Detail.pub r) = Pub.id p)
  /\ (Pub.id p <> 0%Z -> In p allPublications ->
      (forall q, In q (Detail.historic fp ++ Detail.contemporary fp) ->
         Pub.id q <> Pub.id p) ->
      (forall q, In q allPublications -> Pub.id q = Pub.id p -> q = p) ->
      Detail.init (Archive.detailLink largeForm p) fp allPublications
      = Some (Detail.mkFound p Detail.Main)).
Proof.
  intros Hsafe.
  assert (Hlink : Detail.getPublicationId (Archive.detailLink largeForm p)
                  = Some (Pub.id p)) by now apply getPublicationId_link.
  split; [exact Hlink|]. split; [now apply getPublicationId_link|].
  unfold Detail.init. rewrite Hlink.
  split; [|split].
  - intros ->. reflexivity.
  - intros Hne Hin.
    destruct (Z.eqb_spec (Pub.id p) 0) as [|_]; [contradiction|].
    unfold Detail.findPublication.
    destruct (find _ (Detail.historic fp)) as [q|] eqn:E1;
      [|destruct (find _ (Detail.contemporary fp)) as [q|] eqn:E2;
        [|destruct (find_succeeds (Detail.byId (Pub.id p)) allPublications p
                     Hin (Z.eqb_refl _)) as [q E3]; rewrite E3]];
      eexists; (split; [reflexivity|]); simpl;
      match goal with
      | E : find _ _ = Some _ |- _ =>
          apply find_some in E; destruct E as [_ Hid];
          now apply Z.eqb_eq in Hid
      end.
  - intros Hne Hin Hfeat Huniq.
    destruct (Z.eqb_spec (Pub.id p) 0) as [|_]; [contradiction|].
    unfold Detail.findPublication.
    assert (Hnone : forall l,
      incl l (Detail.historic fp ++ Detail.contemporary fp) ->
      find (Detail.byId (Pub.id p)) l = None).
    { intros l Hl. destruct (find _ l) as [q|] eqn:E; [|reflexivity].
      apply find_some in E. destruct E as [Hq Hid].
      apply Z.eqb_eq in Hid. now destruct (Hfeat q (Hl q Hq)). }
    rewrite !Hnone by (intros q Hq; apply in_or_app; auto).
    destruct (find_succeeds (Detail.byId (Pub.id p)) allPublications p
                Hin (Z.eqb_refl _)) as [q E3].
    rewrite E3. apply find_some in E3. destruct E3 as [Hq Hid].
    apply Z.eqb_eq in Hid. now rewrite (Huniq q Hq Hid).
Qed.

Lemma detail_link_resolves_witness :
  isSafeInteger (Pub.id afroAmerican) = true
  /\ exists r,
       Detail.init (Archive.detailLink (fun _ => "1e+21") afroAmerican)
         (Detail.mkFeatured [] []) [withYears 2 None None; afroAmerican]
       = Some r
       /\ Pub.id (Detail.pub r) = 1%Z.
Proof.
  split; [reflexivity|].
  refine (proj1 (proj2 (proj2 (proj2 (detail_link_resolves
    (fun _ => "1e+21") (Detail.mkFeatured [] [])
    [withYears 2 None None; afroAmerican] afroAmerican eq_refl)))) _ _).
  - discriminate.
  - right. left. reflexivity.
Defined.

(** ** Truncation and escaping *)

Lemma substring_prefix_split (n : nat) (s : string) :
  exists rest,
    s = (String.substring 0 n s ++ rest)%string
    /\ String.length (String.substring 0 n s)
       = Nat.min n (String.length s).
Proof.
  revert n. induction s as [|c s IH]; intros n.
  - exists EmptyString. destruct n; split; reflexivity.
  - destruct n as [|n].
    + exists (String c s). split; reflexivity.
    + destruct (IH n) as [rest [E L]]. exists rest. cbn. split.
      * now rewrite <- E.
      * now rewrite L.
Qed.

Lemma length_append_string (a b : string) :
  String.length (a ++ b)%string = String.length a + String.length b.
Proof. induction a as [|c a IH]; simpl; [reflexivity | now rewrite IH]. Qed.

(** X19. [truncate] on the archive and home pages returns a short text
    unchanged, and cuts a text longer than [len] to its first [len]
    characters followed by three dots; so the result is never longer than
    [len + 3], and a missing or empty text gives the empty string. *)
Theorem truncate_bounds (str : option string) (len : nat) :
  String.length (Archive.truncate str len) <= len + 3
  /\ App.truncate str len = Archive.truncate str len
  /\ (forall s, str = Some s -> String.length s <= len ->
        Archive.truncate str len = s)
  /\ (forall s, str = Some s -> len < String.length s ->
        exists rest,
          s = (String.substring 0 len s ++ rest)%string
          /\ Archive.truncate str len
             = (String.substring 0 len s ++ "...")%string
          /\ String.length (Archive.truncate str len) = len + 3)
  /\ (str = None -> Archive.truncate str len = EmptyString).
Proof.
  assert (Hlong : forall s, len < String.length s ->
    String.length (String.substring 0 len s ++ "...")%string = len + 3).
  { intros s Hs. rewrite length_append_string.
    destruct (substring_prefix_split len s) as [_ [_ ->]]. simpl. lia. }
  split; [|split; [reflexivity|split; [|split]]].
  - destruct str as [[|c r]|]; unfold Archive.truncate;
      try (simpl; lia).
    destruct (Nat.ltb_spec len (String.length (String c r))) as [H|H].
    + rewrite (Hlong (String c r)) by exact H. lia.
    + lia.
  - intros s -> Hs. destruct s as [|c r]; [reflexivity|].
    unfold Archive.truncate.
    destruct (Nat.ltb_spec len (String.length (String c r))); [lia|].
    reflexivity.
  - intros s -> Hs. destruct s as [|c r]; [simpl in Hs; lia|].
    destruct (substring_prefix_split len (String c r)) as [rest [E _]].
    exists rest. split; [exact E|].
    unfold Archive.truncate.
    destruct (Nat.ltb_spec len (String.length (String c r))); [|lia].
    split; [reflexivity | now apply Hlong].
  - intros ->. reflexivity.
Qed.

Lemma truncate_bounds_witness :
  Archive.truncate (Some "Afro-American") 4 = "Afro...".
Proof.
  destruct (proj1 (proj2 (proj2 (proj2
    (truncate_bounds (Some "Afro-American") 4)))) "Afro-American"
    eq_refl) as [rest [_ [E _]]].
  - simpl. lia.
  - rewrite E. reflexivity.
Defined.

Lemma replaceAll_lacks_target (c : ascii) (by_ s : string) :
  lacks c by_ = true -> lacks c (replaceAll c by_ s) = true.
Proof.
  intros Hb. induction s as [|x s IH]; [reflexivity|].
  cbn [replaceAll]. destruct (Ascii.eqb x c) eqn:E.
  - now rewrite lacks_app, Hb, IH.
  - cbn [lacks]. now rewrite E, IH.
Qed.

Lemma replaceAll_lacks_other (c d : ascii) (by_ s : string) :
  lacks d by_ = true -> lacks d s = true ->
  lacks d (replaceAll c by_ s) = true.
Proof.
  intros Hb. induction s as [|x s IH]; [reflexivity|].
  cbn [replaceAll lacks]. rewrite andb_true_iff. intros [Hx Hs].
  destruct (Ascii.eqb x c).
  - now rewrite lacks_app, Hb, IH.
  - cbn [lacks]. now rewrite Hx, IH.
Qed.

Lemma replaceAll_absent (c : ascii) (by_ s : string) :
  lacks c s = true -> replaceAll c by_ s = s.
Proof.
  induction s as [|x s IH]; [reflexivity|].
  cbn [replaceAll lacks]. rewrite andb_true_iff, negb_true_iff.
  intros [Hx Hs]. now rewrite Hx, IH.
Qed.

(** X20. [escapeAttr] leaves no double quote and no apostrophe in its
    result, and returns a text that has neither unchanged. *)
Theorem escapeAttr_removes_quotes (str : option string) :
  lacks "034" (FeaturedCards.escapeAttr str) = true
  /\ lacks "'" (FeaturedCards.escapeAttr str) = true
  /\ (forall s, str = Some s ->
        lacks "034" s = true -> lacks "'" s = true ->
        FeaturedCards.escapeAttr str = s).
Proof.
  unfold FeaturedCards.escapeAttr.
  split; [|split].
  - destruct str as [[|c r]|]; try reflexivity.
    apply replaceAll_lacks_other; [reflexivity|].
    now apply replaceAll_lacks_target.
  - destruct str as [[|c r]|]; try reflexivity.
    now apply replaceAll_lacks_target.
  - intros s -> Hq Ha. destruct s as [|c r]; [reflexivity|].
    rewrite (replaceAll_absent "034" _ _ Hq).
    now rewrite (replaceAll_absent "'" _ _ Ha).
Qed.

Lemma escapeAttr_removes_quotes_witness :
  FeaturedCards.escapeAttr (Some "Echo") = "Echo".
Proof.
  exact (proj2 (proj2 (escapeAttr_removes_quotes (Some "Echo")))
           "Echo" eq_refl eq_refl eq_refl).
Defined.

Lemma append_assoc_string (a b c : string) :
  ((a ++ b) ++ c)%string = (a ++ (b ++ c))%string.
Proof. induction a as [|x a IH]; simpl; [reflexivity | now rewrite IH]. Qed.

Lemma substring_exact_prefix (pre rest : string) :
  String.substring 0 (String.length pre) (pre ++ rest)%string = pre.
Proof.
  induction pre as [|x pre IH]; simpl.
  - now destruct rest.
  - now rewrite IH.
Qed.

Lemma lastIndexFrom_spec (c : ascii) (s : string) (i : Z) :
  lastIndexFrom c s i = (-1)%Z
  \/ (i <= lastIndexFrom c s i < i + Z.of_nat (String.length s))%Z
     /\ exists pre post,
          s = (pre ++ String c post)%string
          /\ Z.of_nat (String.length pre) = (lastIndexFrom c s i - i)%Z.
Proof.
  revert i. induction s as [|x r IH]; intros i; [now left|].
  cbn [lastIndexFrom String.length].
  destruct (Z.leb_spec 0 (lastIndexFrom c r (i + 1))) as [Hk|Hk].
  - right. destruct (IH (i + 1)%Z) as [E|[Hr [pre [post [E L]]]]].
    + destruct (Z.leb_spec 0 i).
      * rewrite E in Hk. lia.
      * rewrite E in Hk. lia.
    + split; [lia|]. exists (String x pre), post. split.
      * simpl. now rewrite <- E.
      * cbn [String.length]. lia.
  - destruct (Ascii.eqb_spec x c) as [->|Hne]; [|now left].
    right. split; [lia|]. exists EmptyString, r. split; [reflexivity|].
    simpl. lia.
Qed.

(** X21. [truncate] of the featured cards returns a text of at most [len]
    characters unchanged; a longer text is cut to a prefix of at most
    [len] characters followed by three dots.  For [len] of 29 or more the
    prefix keeps more than [len - 30] characters, and when it keeps fewer
    than [len] the cut falls right before a space.  For [len] below 29 a
    text with no space among its first [len] characters is cut down to the
    three dots alone. *)
Theorem featured_truncate_cuts (s : string) (len : Z) :
  nonEmpty s = true -> (0 <= len)%Z ->
  ((Z.of_nat (String.length s) <= len)%Z ->
   FeaturedCards.truncate (Some s) len = s)
  /\ ((len < Z.of_nat (String.length s))%Z ->
      exists kept rest,
        FeaturedCards.truncate (Some s) len = (kept ++ "...")%string
        /\ s = (kept ++ rest)%string
        /\ (Z.of_nat (String.length kept) <= len)%Z
        /\ ((29 <= len)%Z ->
            (len - 30 < Z.of_nat (String.length kept))%Z
            /\ ((Z.of_nat (String.length kept) < len)%Z ->
                exists rest', rest = String " " rest')))
  /\ ((len < Z.of_nat (String.length s))%Z -> (len < 29)%Z ->
      lastIndexFrom " " (substringTo s len) 0 = (-1)%Z ->
      FeaturedCards.truncate (Some s) len = "...").
Proof.
  intros Hs Hlen. destruct s as [|c0 r0]; [discriminate Hs|].
  unfold FeaturedCards.truncate. cbv beta iota zeta.
  remember (String c0 r0) as s eqn:Es. clear Es Hs.
  split; [|split].
  - intros H. destruct (Z.leb_spec (Z.of_nat (String.length s)) len);
      [reflexivity | lia].
  - intros H. destruct (Z.leb_spec (Z.of_nat (String.length s)) len);
      [lia|].
    unfold substringTo.
    destruct (substring_prefix_split (Z.to_nat len) s) as [rest0 [E L]].
    set (T := String.substring 0 (Z.to_nat len) s) in *.
    assert (LT : Z.of_nat (String.length T) = len) by lia.
    destruct (Z.ltb_spec (len - 30) (lastIndexFrom " " T 0)) as [Hcut|Hcut].
    + destruct (lastIndexFrom_spec " " T 0)
        as [Ek|[Hk [pre [post [ET Lp]]]]].
      * exists EmptyString, s. rewrite Ek. unfold substringTo. simpl.
        split; [now destruct T|]. split; [reflexivity|].
        split; [lia|]. intros H29. rewrite Ek in Hcut. lia.
      * exists pre, (String " " (post ++ rest0))%string.
        unfold substringTo.
        replace (Z.to_nat (lastIndexFrom " " T 0))
          with (String.length pre) by lia.
        rewrite ET at 1. rewrite substring_exact_prefix.
        split; [reflexivity|]. split.
        { rewrite E, ET at 1. now rewrite append_assoc_string. }
        split; [lia|]. intros _. split; [lia|]. intros _. eauto.
    + exists T, rest0. split; [reflexivity|]. split; [exact E|].
      split; [lia|]. intros H29. split; lia.
  - intros H H29 Ek.
    destruct (Z.leb_spec (Z.of_nat (String.length s)) len); [lia|].
    rewrite Ek.
    destruct (Z.ltb_spec (len - 30) (-1)) as [_|Hge]; [|lia].
    unfold substringTo at 1. change (Z.to_nat (-1)) with 0%nat.
    now destruct (substringTo s len).
Qed.

Lemma featured_truncate_cuts_witness :
  FeaturedCards.truncate (Some "Afro-American") 20 = "Afro-American".
Proof.
  refine (proj1 (featured_truncate_cuts "Afro-American" 20 eq_refl _) _).
  - lia.
  - simpl. lia.
Defined.

(** ** Bookmarks *)

Lemma loadStateFromURL_updateURL (s : Archive.State) :
  Archive.filters
    (Archive.loadStateFromURL (Archive.updateURL s) Archive.initialState)
  = Archive.filters s
  /\ Archive.sort
       (Archive.loadStateFromURL (Archive.updateURL s) Archive.initialState)
     = Archive.sort s
  /\ Archive.view
       (Archive.loadStateFromURL (Archive.updateURL s) Archive.initialState)
     = Archive.view s.
Proof.
  unfold Archive.loadStateFromURL. rewrite ofString_updateURL.
  destruct s as [pubs filt [q c d stt] srt vw pg pp].
  unfold Archive.urlParams.
  cbn [Archive.filters Archive.search Archive.city Archive.decade
       Archive.status Archive.sort Archive.view].
  destruct q as [|q0 q'];
    destruct (String.eqb_spec c "all");
    destruct (String.eqb_spec d "all");
    destruct (String.eqb_spec stt "all");
    destruct (String.eqb_spec srt "name");
    destruct (String.eqb_spec vw "grid");
    subst; cbn; repeat split; reflexivity.
Qed.

Lemma archive_applyFilters_inputs lc (a b : Archive.State) :
  Archive.publications b = Archive.publications a ->
  Archive.filters b = Archive.filters a ->
  Archive.sort b = Archive.sort a ->
  match Archive.applyFilters lc a, Archive.applyFilters lc b with
  | Normal a', Normal b' =>
      Archive.filtered b' = Archive.filtered a'
      /\ Archive.filters b' = Archive.filters a
      /\ Archive.sort b' = Archive.sort a
      /\ Archive.view b' = Archive.view b
      /\ Archive.page b' = Archive.page b
  | Throw _, Throw _ => True
  | _, _ => False
  end.
Proof.
  intros Hp Hf Hs. unfold Archive.applyFilters. rewrite Hp, Hf.
  destruct (if nonEmpty _ then _ else _) as [l|[]]; cbn [JS.bind];
    [|exact I].
  cbn. repeat split; try assumption.
  now apply archive_sort_only_key.
Qed.

Section Bookmarks.
Variable localeCompare : string -> string -> Z.

(** X22. Opening the archive page at the URL the page wrote for a state
    reproduces that state's view: with the same publications loaded, the
    page start-up throws exactly when [applyFilters] throws on the state,
    and otherwise ends with the same filtered list in the same order, the
    same filters, sort key and view mode, on page 1. *)
Theorem bookmark_reproduces_view (a : Archive.State) :
  match Archive.applyFilters localeCompare a,
        Archive.init localeCompare (Archive.updateURL a)
          (Archive.publications a) with
  | Normal a', Normal b' =>
      Archive.filtered b' = Archive.filtered a'
      /\ Archive.filters b' = Archive.filters a
      /\ Archive.sort b' = Archive.sort a
      /\ Archive.view b' = Archive.view a
      /\ Archive.page b' = 1
  | Throw _, Throw _ => True
  | _, _ => False
  end.
Proof.
  destruct (loadStateFromURL_updateURL a) as [Hf [Hs Hv]].
  unfold Archive.init.
  match goal with
  | |- context [Archive.applyFilters localeCompare ?st] =>
      lazymatch st with
      | a => fail
      | _ => pose proof (archive_applyFilters_inputs localeCompare a st
                           eq_refl Hf Hs) as H
      end
  end.
  destruct (Archive.applyFilters localeCompare a) as [a'|e];
    destruct (Archive.applyFilters localeCompare _) as [b'|e'];
    try exact H.
  destruct H as [H1 [H2 [H3 [H4 H5]]]].
  repeat split; try assumption.
  rewrite H4. exact Hv.
Qed.

(** X23. A sort key from a hand-edited URL that the page does not
    recognise is accepted and sorts nothing: opened at [?sort=<key>], the
    page ends with that key stored, every filter at its default, and the
    loaded records listed in source order. *)
Theorem unknown_sort_in_url (key : string) (pubs : list Pub.t) :
  ~ recognizedKey key ->
  exists b',
    Archive.init localeCompare
      ("?sort=" ++ URLSearchParams.encode key)%string pubs = Normal b'
    /\ Archive.sort b' = key
    /\ Archive.filters b' = Archive.filters Archive.initialState
    /\ Archive.filtered b' = pubs.
Proof.
  intros Hk.
  assert (Hparams : URLSearchParams.ofString
            ("?sort=" ++ URLSearchParams.encode key)%string
          = [("sort", key)]).
  { change (URLSearchParams.ofString
              ("?sort=" ++ URLSearchParams.encode key)%string)
      with (URLSearchParams.parse
              (URLSearchParams.serialize [("sort", key)])).
    apply parse_serialize. }
  unfold Archive.init, Archive.loadStateFromURL. rewrite Hparams.
  unfold Archive.applyFilters. cbn.
  eexists. split; [reflexivity|]. cbn. repeat split.
  unfold Archive.sortPublications. cbn. unfold recognizedKey in Hk.
  repeat match goal with
  | |- context [String.eqb ?x ?y] =>
      destruct (String.eqb_spec x y); [tauto|]
  end.
  reflexivity.
Qed.
End Bookmarks.

Lemma unknown_sort_in_url_witness :
  exists b',
    Archive.init codeUnitCompare "?sort=bogus" threeRecords = Normal b'
    /\ Archive.filtered b' = threeRecords.
Proof.
  destruct (unknown_sort_in_url codeUnitCompare "bogus" threeRecords)
    as [b' [Hb [_ [_ Hf]]]].
  - unfold recognizedKey. intros [H|[H|[H|H]]]; discriminate H.
  - exists b'. split; [exact Hb | exact Hf].
Defined.

(** ** The home page's filter buttons *)

Section HomeFilters.
Variable localeCompare : string -> string -> Z.

(** X24. On the home page, when no record carries its publishers as an
    array, [removeFilter(type)] returns, removes exactly the chip of that
    type and keeps the other chips with their labels, and restarts
    pagination at page 1; for a type that names no filter the chips stay
    as they are. *)
Theorem removeFilter_drops_chip (b : App.State) (ty : string) :
  publishersAreText (App.publications b) ->
  exists b',
    App.removeFilter localeCompare ty b = Normal b'
    /\ App.activeFilterChips b'
       = filter (fun c => negb (String.eqb (App.type c) ty))
           (App.activeFilterChips b)
    /\ App.currentPage b' = 1
    /\ App.publications b' = App.publications b.
Proof.
  intros Hp. unfold App.removeFilter.
  rewrite app_applyFilters_text by exact Hp.
  eexists. split; [reflexivity|].
  split; [|now repeat split].
  unfold App.activeFilterChips, App.sortPublications, App.assignFilter.
  destruct b as [pubs shown [s c d stt fmt] srt pg pp].
  cbn [App.filters App.search App.city App.decade App.status App.format].
  destruct (String.eqb_spec ty "search") as [->|N1];
    [|destruct (String.eqb_spec ty "city") as [->|N2];
      [|destruct (String.eqb_spec ty "decade") as [->|N3];
        [|destruct (String.eqb_spec ty "status") as [->|N4];
          [|destruct (String.eqb_spec ty "format") as [->|N5]]]]];
    cbn [App.filters App.search App.city App.decade App.status App.format
         String.eqb Ascii.eqb Bool.eqb];
    destruct (nonEmpty s), (String.eqb c "all"), (String.eqb d "all"),
             (String.eqb stt "all"), (String.eqb fmt "all");
    cbn [app filter App.type negb nonEmpty];
    try (repeat match goal with
         | |- context [String.eqb ?k ty] =>
             destruct (String.eqb_spec k ty); [congruence|]
         end);
    reflexivity.
Qed.

End HomeFilters.

Lemma removeFilter_drops_chip_witness :
  exists b',
    App.removeFilter codeUnitCompare "format"
      (appState [afroAmerican]
         (App.mkFilters "afro" "all" "all" "all" "print") "name" 2)
    = Normal b'
    /\ map App.type (App.activeFilterChips b') = ["search"].
Proof.
  destruct (removeFilter_drops_chip codeUnitCompare
    (appState [afroAmerican]
       (App.mkFilters "afro" "all" "all" "all" "print") "name" 2) "format")
    as [b' [Hb [Hc _]]].
  - intros p l [<-|[]]; discriminate.
  - exists b'. split; [exact Hb|]. rewrite Hc. reflexivity.
Defined.


Lemma findPublication_finds_the_id_witness :
  Detail.findPublication (Detail.mkFeatured [] []) [afroAmerican] 7 = None.
Proof.
  apply (proj2 (findPublication_finds_the_id
                  (Detail.mkFeatured [] []) [afroAmerican] 7)).
  intros p [<-|[]]. discriminate.
Defined.

(** ** Handlers and the page cursor *)

Section Handlers.
Variable localeCompare : string -> string -> Z.

End Handlers.

